(** * RadarSys: the edge radar service and the central manager

    A shallow embedding of [raspberry/radar_service.py],
    [radar_config_routes.py] and [manager_server.py].

    Conventions of the embedding:
    - Python [float] is the kernel's binary64 [float]; the arithmetic and the
      comparisons of the source are [PrimFloat]'s.
    - [time.time()], [uuid.uuid4()] and [datetime.now().isoformat()] are
      inputs of the function that calls them.
    - module-level globals ([sensor_a_tempo], [eventos_realtime],
      [status_radares], [eventos_recentes], [config]) are fields of an
      explicit state that every handler takes and returns.
    - an exception that leaves a function is the [Raised] outcome, carrying
      the state as the function left it. *)

From Stdlib Require Import Floats ZArith List Bool Lia Ascii String.
From stdpp Require Import base option list strings gmap.

(* Decimal literals such as 3.6 denote the nearest binary64 value, as they do
   in Python. *)
Set Warnings "-inexact-float,-register-all".

Local Open Scope string_scope.
Local Open Scope Z_scope.
Local Open Scope list_scope.

(** ** Outcomes and responses *)

(** The exceptions that the modelled code can raise. *)
Inductive exn : Set :=
| IntegrityError   (* sqlite3: a UNIQUE or NOT NULL constraint failed *)
| AttributeError.  (* [.get] on a value that is not a dict *)

(** The result of running a handler on a state: it returns, or an exception
    leaves it; either way the state is what the handler made of it. *)
Inductive outcome (S : Type) : Type :=
| Returned (s : S)
| Raised (e : exn) (s : S).
Arguments Returned {S} s.
Arguments Raised {S} e s.

Definition estado {S : Type} (o : outcome S) : S :=
  match o with Returned s => s | Raised _ s => s end.

(** What a Flask view answers: [abort(401)] or [jsonify] of a value. *)
Inductive resposta (A : Type) : Type :=
| Abort401
| Json (a : A).
Arguments Abort401 {A}.
Arguments Json {A} a.

(** ** The [str] methods used by the services

    A character is a code point below 256. *)
Module PyStr.

(** [str.isspace] on one character. *)
Definition isspace (c : ascii) : bool :=
  let n := nat_of_ascii c in
  ((9 <=? n) && (n <=? 13) || (28 <=? n) && (n <=? 32)
   || (n =? 133) || (n =? 160))%nat.

Fixpoint lstrip (s : string) : string :=
  match s with
  | EmptyString => EmptyString
  | String c r => if isspace c then lstrip r else s
  end.

Fixpoint rstrip (s : string) : string :=
  match s with
  | EmptyString => EmptyString
  | String c r =>
      match rstrip r with
      | EmptyString => if isspace c then EmptyString else String c EmptyString
      | r' => String c r'
      end
  end.

(** [s.strip()] *)
Definition strip (s : string) : string := lstrip (rstrip s).

(** [c in s] for a one-character [c] *)
Fixpoint contains (c : ascii) (s : string) : bool :=
  match s with
  | EmptyString => false
  | String d r => Ascii.eqb d c || contains c r
  end.

(** [s.startswith(p)] *)
Fixpoint startswith (p s : string) : bool :=
  match p, s with
  | EmptyString, _ => true
  | String a p', String b s' => Ascii.eqb a b && startswith p' s'
  | String _ _, EmptyString => false
  end.

(** [s.partition(c)] for a one-character separator: the part before the
    first [c], the separator, the part after; [(s, "", "")] without one. *)
Fixpoint partition (c : ascii) (s : string) : string * string * string :=
  match s with
  | EmptyString => (EmptyString, EmptyString, EmptyString)
  | String d r =>
      if Ascii.eqb d c then (EmptyString, String c EmptyString, r)
      else let '(a, m, b) := partition c r in (String d a, m, b)
  end.

(** [s[n:]] *)
Fixpoint slice_from (n : nat) (s : string) : string :=
  match n, s with
  | O, _ => s
  | S n', String _ r => slice_from n' r
  | S _, EmptyString => EmptyString
  end.

End PyStr.

(** ** [raspberry/radar_service.py]: the edge node *)
Module RadarService.

(** The settings the service reads from its environment at start-up (those
    the functions below use). *)
Record Config : Type := {
  RADAR_ID : string;
  RADAR_NAME : string;
  API_TOKEN : string;
  SENSOR_DIST_M : float;
  SPEED_LIMIT : float;
  PG_AVAILABLE : bool;   (* psycopg2 could be imported *)
  PG_HOST : string }.

(** *** The local SQLite buffer *)

(** A row of the table [deteccoes]; the two flags are INTEGER columns. *)
Record Deteccao : Type := {
  det_id : Z;
  det_uuid : string;
  det_radar_id : string;
  det_timestamp : string;
  det_velocidade : float;
  det_direcao : string;
  det_acima_limite : Z;
  det_sincronizado : Z }.

(** The table in rowid order, and the counter AUTOINCREMENT keeps. *)
Record Sqlite : Type := {
  deteccoes : list Deteccao;
  sqlite_sequence : Z }.

Definition tem_uuid (u : string) (rows : list Deteccao) : bool :=
  existsb (fun r => bool_decide (det_uuid r = u)) rows.

Definition com_sincronizado (r : Deteccao) (v : Z) : Deteccao :=
  {| det_id := det_id r; det_uuid := det_uuid r;
     det_radar_id := det_radar_id r; det_timestamp := det_timestamp r;
     det_velocidade := det_velocidade r; det_direcao := det_direcao r;
     det_acima_limite := det_acima_limite r; det_sincronizado := v |}.

(** [UPDATE deteccoes SET sincronizado = 1 WHERE uuid = ?] *)
Definition update_sincronizado (rows : list Deteccao) (u : string)
  : list Deteccao :=
  (fun r => if bool_decide (det_uuid r = u) then com_sincronizado r 1 else r)
    <$> rows.

(** [marcar_sincronizado]: the UPDATE once per uuid of the list. *)
Definition marcar_sincronizado (uuids : list string) (db : Sqlite) : Sqlite :=
  {| deteccoes := foldl update_sincronizado (deteccoes db) uuids;
     sqlite_sequence := sqlite_sequence db |}.

(** [SELECT * FROM deteccoes WHERE sincronizado = 0 ORDER BY id LIMIT 100] *)
Definition get_deteccoes_nao_sincronizadas (db : Sqlite) : list Deteccao :=
  take 100 (filter (fun r => det_sincronizado r = 0) (deteccoes db)).

(** *** The central PostgreSQL table *)

(** A row of [radar_deteccoes], by the columns the INSERT supplies and with
    the values it sends; [id] and [criado_em] are filled by the store and
    read by no function here. *)
Record PgDeteccao : Type := {
  pg_uuid : string;
  pg_radar_id : string;
  pg_radar_nome : string;
  pg_timestamp : string;
  pg_velocidade : float;
  pg_direcao : string;
  pg_acima_limite : bool }.

(** The central database: [None] while [radar_deteccoes] does not exist. *)
Record Postgres : Type := { radar_deteccoes : option (list PgDeteccao) }.

Definition pg_tem_uuid (u : string) (tbl : list PgDeteccao) : bool :=
  existsb (fun r => bool_decide (pg_uuid r = u)) tbl.

(** [CREATE TABLE IF NOT EXISTS radar_deteccoes (...)], then commit: the
    table the rest of the cycle works on. *)
Definition garantir_tabela_pg (pg : Postgres) : list PgDeteccao :=
  match radar_deteccoes pg with
  | Some tbl => tbl
  | None => []
  end.

(** The transaction of one cycle: the table as the statements so far leave
    it, whether a statement has failed (the transaction is then aborted:
    every later statement raises too, and [commit] rolls back), and the
    uuids appended to [enviados]. *)
Record Envio : Type := {
  tabela : list PgDeteccao;
  abortada : bool;
  enviados : list string }.

Section Servico.

Variable cfg : Config.

(** [round(x, 2)] *)
Variable round2 : float -> float.

(** [salvar_deteccao]: the INSERT fails on a NaN speed (sqlite3 binds it as
    NULL, which [velocidade REAL NOT NULL] rejects) and on a uuid the table
    already has ([uuid TEXT NOT NULL UNIQUE]); [sincronizado] takes its
    DEFAULT 0. The function returns [uid], its own input here. *)
Definition salvar_deteccao (velocidade : float) (direcao : string)
    (uid ts : string) (db : Sqlite) : outcome Sqlite :=
  let acima := if PrimFloat.ltb (SPEED_LIMIT cfg) velocidade then 1 else 0 in
  if PrimFloat.is_nan velocidade then Raised IntegrityError db
  else if tem_uuid uid (deteccoes db) then Raised IntegrityError db
  else
    let rowid := sqlite_sequence db + 1 in
    Returned
      {| deteccoes := deteccoes db ++
           [ {| det_id := rowid; det_uuid := uid;
                det_radar_id := RADAR_ID cfg; det_timestamp := ts;
                det_velocidade := velocidade; det_direcao := direcao;
                det_acima_limite := acima; det_sincronizado := 0 |} ];
         sqlite_sequence := rowid |}.

(** [get_pg_connection]: [central] is what [psycopg2.connect] reaches,
    [None] when it raises. *)
Definition get_pg_connection (central : option Postgres) : option Postgres :=
  if negb (PG_AVAILABLE cfg) || bool_decide (PG_HOST cfg = "") then None
  else central.

(** [INSERT INTO radar_deteccoes ... ON CONFLICT (uuid) DO NOTHING] *)
Definition inserir (det : Deteccao) (tbl : list PgDeteccao)
  : list PgDeteccao :=
  if pg_tem_uuid (det_uuid det) tbl then tbl
  else tbl ++
    [ {| pg_uuid := det_uuid det; pg_radar_id := det_radar_id det;
         pg_radar_nome := RADAR_NAME cfg;
         pg_timestamp := det_timestamp det;
         pg_velocidade := det_velocidade det;
         pg_direcao := det_direcao det;
         pg_acima_limite := negb (Z.eqb (det_acima_limite det) 0) |} ].

(** The body of the [for det in pendentes] loop; [rejeita det] says that
    the store refuses the statement for [det] (the [except] branch). *)
Definition enviar (rejeita : Deteccao -> bool) (e : Envio) (det : Deteccao)
  : Envio :=
  if abortada e then e
  else if rejeita det then
    {| tabela := tabela e; abortada := true; enviados := enviados e |}
  else
    {| tabela := inserir det (tabela e); abortada := false;
       enviados := enviados e ++ [det_uuid det] |}.

(** [sincronizar_com_central]: one cycle, on the local buffer and the
    central database. A cycle whose connection fails leaves both as they
    were. *)
Definition sincronizar_com_central (rejeita : Deteccao -> bool)
    (central : option Postgres) (db : Sqlite) : Sqlite * option Postgres :=
  let pendentes := get_deteccoes_nao_sincronizadas db in
  match pendentes with
  | [] => (db, central)
  | _ =>
      match get_pg_connection central with
      | None => (db, central)
      | Some pg =>
          let tbl0 := garantir_tabela_pg pg in
          let e := foldl (enviar rejeita)
                     {| tabela := tbl0; abortada := false; enviados := [] |}
                     pendentes in
          let tbl := if abortada e then tbl0 else tabela e in
          let db' := match enviados e with
                     | [] => db
                     | _ => marcar_sincronizado (enviados e) db
                     end in
          (db', Some {| radar_deteccoes := Some tbl |})
      end
  end.

(** *** Sensors and the real-time buffer *)

Record Evento : Type := {
  ev_uuid : string;
  ev_radar_id : string;
  ev_radar_nome : string;
  ev_velocidade : float;
  ev_limite : float;
  ev_acima_limite : bool;
  ev_timestamp : string;
  ev_direcao : string }.

(** The globals of the module. *)
Record Radar : Type := {
  sensor_a_tempo : option float;
  sqlite : Sqlite;
  eventos_realtime : list Evento }.

(** [adicionar_evento_realtime]: append, then [pop(0)] above 50 entries. *)
Definition adicionar_evento_realtime (dados : Evento) (buf : list Evento)
  : list Evento :=
  let buf' := buf ++ [dados] in
  if (50 <? length buf')%nat then drop 1 buf' else buf'.

Definition callback_sensor_a (agora : float) (st : Radar) : Radar :=
  {| sensor_a_tempo := Some agora; sqlite := sqlite st;
     eventos_realtime := eventos_realtime st |}.

(** [callback_sensor_b]: [agora] is [time.time()], [uid] the fresh uuid of
    [salvar_deteccao], [ts] and [ts'] the two readings of the wall clock. *)
Definition callback_sensor_b (agora : float) (uid ts ts' : string)
    (st : Radar) : outcome Radar :=
  match sensor_a_tempo st with
  | None => Returned st
  | Some t_a =>
      let delta_t := (agora - t_a)%float in
      let st1 := {| sensor_a_tempo := None; sqlite := sqlite st;
                    eventos_realtime := eventos_realtime st |} in
      if PrimFloat.leb delta_t 0 || PrimFloat.ltb 10 delta_t then Returned st1
      else
        let velocidade_ms := (SENSOR_DIST_M cfg / delta_t)%float in
        let velocidade_kmh := (velocidade_ms * 3.6)%float in
        if PrimFloat.ltb 200 velocidade_kmh then Returned st1
        else
          match salvar_deteccao velocidade_kmh "A->B" uid ts (sqlite st1) with
          | Raised e _ => Raised e st1
          | Returned db' =>
              let evento :=
                {| ev_uuid := uid; ev_radar_id := RADAR_ID cfg;
                   ev_radar_nome := RADAR_NAME cfg;
                   ev_velocidade := round2 velocidade_kmh;
                   ev_limite := SPEED_LIMIT cfg;
                   ev_acima_limite :=
                     PrimFloat.ltb (SPEED_LIMIT cfg) velocidade_kmh;
                   ev_timestamp := ts'; ev_direcao := "A->B" |} in
              Returned
                {| sensor_a_tempo := None; sqlite := db';
                   eventos_realtime :=
                     adicionar_evento_realtime evento (eventos_realtime st1) |}
          end
  end.

(** *** The REST interface *)

(** [requer_token]: [auth] is the Authorization header, [""] without one. *)
Definition requer_token {A : Type} (auth : string) (f : A) : resposta A :=
  if negb (PyStr.startswith "Bearer " auth)
     || negb (bool_decide (PyStr.slice_from 7 auth = API_TOKEN cfg))
  then Abort401 else Json f.

(** [GET /api/eventos]: [list(reversed(eventos_realtime[-20:]))] *)
Definition api_eventos (auth : string) (buf : list Evento)
  : resposta (list Evento) :=
  requer_token auth (reverse (drop (length buf - 20) buf)).

End Servico.

End RadarService.

(** ** [radar_config_routes.py]: the configuration page of the edge node *)
Module RadarConfigRoutes.

(** The body of the [for linha in ...splitlines()] loop of
    [api_config_local]. *)
Definition ler_linha (config : gmap string string) (linha : string)
  : gmap string string :=
  let linha := PyStr.strip linha in
  if PyStr.contains "="%char linha && negb (PyStr.startswith "#" linha) then
    let '(chave, _, valor) := PyStr.partition "="%char linha in
    if bool_decide (PyStr.strip chave = "PG_PASS") then config
    else <[PyStr.strip chave := PyStr.strip valor]> config
  else config.

(** [GET /api/config-local]: [env] is [/etc/radar/.env] as the list of its
    lines, [None] when the file does not exist. *)
Definition api_config_local (cfg : RadarService.Config) (auth : string)
    (env : option (list string)) : resposta (gmap string string) :=
  RadarService.requer_token cfg auth
    (match env with
     | Some linhas => foldl ler_linha ∅ linhas
     | None => ∅
     end).

End RadarConfigRoutes.

(** ** [manager_server.py]: the central manager *)
Module ManagerServer.

(** The values [json.loads] produces. *)
Inductive json : Type :=
| JNull
| JBool (b : bool)
| JInt (z : Z)
| JFloat (f : float)
| JStr (s : string)
| JArr (l : list json)
| JObj (o : gmap string json).

(** [bool(v)] *)
Definition truthy (v : json) : bool :=
  match v with
  | JNull => false
  | JBool b => b
  | JInt z => negb (Z.eqb z 0)
  | JFloat f => negb (PrimFloat.eqb f 0)
  | JStr s => negb (bool_decide (s = ""))
  | JArr l => negb (Nat.eqb (length l) 0)
  | JObj o => negb (Nat.eqb (size o) 0)
  end.

(** [d.get(k)] and [d.get(k, v)] on a dict. *)
Definition get (d : gmap string json) (k : string) : json :=
  default JNull (d !! k).
Definition get_or (d : gmap string json) (k : string) (v : json) : json :=
  default v (d !! k).

(** The globals of the module. *)
Record Manager : Type := {
  config : gmap string json;
  status_radares : gmap string (gmap string json);
  eventos_recentes : list (gmap string json) }.

(** [atualizar_status_radar] *)
Definition atualizar_status_radar (agora : string) (radar_id : string)
    (dados : gmap string json) (st : Manager) : Manager :=
  {| config := config st;
     status_radares :=
       <[radar_id := <["ultima_atualizacao" := JStr agora]> dados]>
         (status_radares st);
     eventos_recentes := eventos_recentes st |}.

(** [adicionar_evento]: [insert(0, evento)], then [pop()] above 200. *)
Definition adicionar_evento (evento : gmap string json)
    (buf : list (gmap string json)) : list (gmap string json) :=
  let buf' := evento :: buf in
  if (200 <? length buf')%nat then removelast buf' else buf'.

(** What [chamar_radar] returns: the decoded body and the status code,
    [({"erro": ...}, 0)] when the request or the decoding raised. *)
Record Respostas : Type := {
  resp_status : json * Z;     (* chamar_radar(ip, "status") *)
  resp_eventos : json * Z }.  (* chamar_radar(ip, "eventos") *)

Section Polling.

(** Python's [==] on two decoded values. *)
Variable py_eq : json -> json -> bool.

(** [any(e.get("uuid") == ev_key for e in eventos_recentes[:50])] *)
Definition ja_visto (ev_key : json) (buf : list (gmap string json)) : bool :=
  existsb (fun e => py_eq (get e "uuid") ev_key) (take 50 buf).

(** The loop [for ev in evts[:5]] over the rest [evs] of the page. An [ev]
    that is no dict raises AttributeError at [ev.get], which the enclosing
    [except Exception: pass] swallows: the loop ends there. *)
Fixpoint novos_eventos (evs : list json) (buf : list (gmap string json))
  : list (gmap string json) :=
  match evs with
  | [] => buf
  | JObj ev :: evs' =>
      let ev_key := get_or ev "uuid" (JStr "") in
      novos_eventos evs'
        (if truthy ev_key && negb (ja_visto ev_key buf)
         then adicionar_evento ev buf else buf)
  | _ :: _ => buf
  end.

(** One iteration of [for radar_id, info in ...items()] in [loop_polling].
    [info.get] is outside the [try]: an [info] that is no dict raises out
    of the loop. Whatever raises inside the [try] is swallowed. *)
Definition sondar (agora : string) (radar_id : string) (info : json)
    (r : Respostas) (st : Manager) : outcome Manager :=
  match info with
  | JObj info =>
      let ip := get info "ip" in
      if negb (truthy ip) then Returned st
      else
        let '(status, code) := resp_status r in
        if Z.eqb code 200 then
          match status with
          | JObj status =>
              let status := <["online" := JBool true]> (<["ip" := ip]> status) in
              let st1 := atualizar_status_radar agora radar_id status st in
              let '(evts, code2) := resp_eventos r in
              match evts with
              | JArr evts =>
                  if Z.eqb code2 200 then
                    Returned
                      {| config := config st1;
                         status_radares := status_radares st1;
                         eventos_recentes :=
                           novos_eventos (take 5 evts) (eventos_recentes st1) |}
                  else Returned st1
              | _ => Returned st1
              end
          | _ => Returned st
          end
        else
          Returned
            (atualizar_status_radar agora radar_id
               (<["radar_nome" := get_or info "radar_nome" (JStr radar_id)]>
                  (<["radar_id" := JStr radar_id]>
                     (<["online" := JBool false]> {[ "ip" := ip ]})))
               st)
  | _ => Raised AttributeError st
  end.

(** One probe of the polling loop: the clock, the radar, its registry
    entry [info] at that moment, and what the radar answers. *)
Record Sondagem : Type := {
  so_agora : string;
  so_radar_id : string;
  so_info : json;
  so_resp : Respostas }.

(** [loop_polling] along the probes of [sondagens]; an exception that
    leaves the loop body ends the thread. *)
Fixpoint loop_polling (sondagens : list Sondagem) (st : Manager) : Manager :=
  match sondagens with
  | [] => st
  | s :: rest =>
      match sondar (so_agora s) (so_radar_id s) (so_info s) (so_resp s) st with
      | Returned st' => loop_polling rest st'
      | Raised _ st' => st'
      end
  end.

End Polling.

(** [GET /api/config]: [cfg = dict(config); cfg.pop("pg_pass", None)] *)
Definition api_get_config (config : gmap string json) : gmap string json :=
  delete "pg_pass" config.

(** *** The launch loop of [escanear_rede]

    Time is counted in tenths of a second and passes only in
    [time.sleep(0.1)]; a probe is given by the time its thread stays alive
    ([SCAN_TIMEOUT] is 15 tenths). *)
Record Varredura : Type := {
  relogio : nat;
  threads : list nat }.   (* the instant each started thread ends *)

(** [len([x for x in threads if x.is_alive()])] *)
Definition vivas (v : Varredura) : nat :=
  length (filter (fun fim => (relogio v < fim)%nat) (threads v)).

(** The body of [for ip in rede.hosts()]: start the thread, then one
    [time.sleep(0.1)] when 50 or more are alive. *)
Definition lancar (v : Varredura) (duracao : nat) : Varredura :=
  let v1 := {| relogio := relogio v;
               threads := threads v ++ [(relogio v + duracao)%nat] |} in
  if (50 <=? vivas v1)%nat
  then {| relogio := S (relogio v1); threads := threads v1 |}
  else v1.

(** The number of probes in flight right after each [t.start()]. *)
Fixpoint em_voo (v : Varredura) (duracoes : list nat) : list nat :=
  match duracoes with
  | [] => []
  | d :: ds =>
      vivas {| relogio := relogio v;
               threads := threads v ++ [(relogio v + d)%nat] |}
        :: em_voo (lancar v d) ds
  end.

End ManagerServer.

(** * Vocabulary of the properties *)

Module Termos.

Import RadarService RadarConfigRoutes ManagerServer.

(** The state with the armed slot cleared and nothing else touched. *)
Definition desarmado (st : Radar) : Radar :=
  {| sensor_a_tempo := None; sqlite := sqlite st;
     eventos_realtime := eventos_realtime st |}.

(** The buffer after the events of [hist], oldest first, went through
    [adicionar_evento_realtime], from the empty list the module starts
    with. *)
Definition buffer_apos (hist : list Evento) : list Evento :=
  foldl (fun buf dados => adicionar_evento_realtime dados buf) [] hist.

(** The flag [marcar_sincronizado uuids] leaves on a row. *)
Definition marcada (uuids : list string) (r : Deteccao) : Deteccao :=
  com_sincronizado r
    (if bool_decide (det_uuid r ∈ uuids) then 1 else det_sincronizado r).

(** One sync cycle of some radar, seen from the central database: the
    radar's settings and local buffer, the statements the store refuses,
    and whether [psycopg2.connect] gets through. *)
Record Ciclo : Type := {
  ci_cfg : Config;
  ci_db : Sqlite;
  ci_rejeita : Deteccao -> bool;
  ci_conecta : bool }.

Definition central_apos_ciclo (pg : Postgres) (c : Ciclo) : Postgres :=
  match (sincronizar_com_central (ci_cfg c) (ci_rejeita c)
           (if ci_conecta c then Some pg else None) (ci_db c)).2 with
  | Some pg' => pg'
  | None => pg
  end.

(** The central database after the cycles of [ciclos], in order. *)
Definition central_apos (ciclos : list Ciclo) (pg : Postgres) : Postgres :=
  foldl central_apos_ciclo pg ciclos.

(** The number of central rows that carry the uuid [u]. *)
Definition linhas_com_uuid (u : string) (pg : Postgres) : nat :=
  length (filter (fun r => pg_uuid r = u) (garantir_tabela_pg pg)).

(** The UNIQUE constraint on [uuid]. *)
Definition uuid_unico (pg : Postgres) : Prop :=
  NoDup (pg_uuid <$> garantir_tabela_pg pg).

(** What the statements of a cycle keep true of the table. *)
Definition conserva (u : string) (tbl : list PgDeteccao) : Prop :=
  NoDup (pg_uuid <$> tbl) /\ (u ∈ pg_uuid <$> tbl).

(** Two lines are the same, or both set the password. *)
Definition mesma_linha_ou_senha (a b : string) : Prop :=
  a = b \/ exists p q, a = "PG_PASS=" +:+ p /\ b = "PG_PASS=" +:+ q.

(** Among the 51 newest entries, no entry has a uuid that compares equal to
    the uuid of a newer one. *)
Definition janela_sem_repeticao (py_eq : json -> json -> bool)
    (buf : list (gmap string json)) : Prop :=
  forall (i j : nat) (ei ej : gmap string json),
    (i < j)%nat -> (j <= 50)%nat ->
    buf !! i = Some ei -> buf !! j = Some ej ->
    py_eq (get ej "uuid") (get ei "uuid") = false.

End Termos.

(** * Worked runs *)

Module Exemplos.

Import ManagerServer.

(** Python's [==] on decoded scalars of one kind (null, booleans, integers,
    strings); the runs below compare strings only. *)
Definition py_eq_escalar (a b : json) : bool :=
  match a, b with
  | JNull, JNull => true
  | JBool x, JBool y => Bool.eqb x y
  | JInt x, JInt y => Z.eqb x y
  | JStr x, JStr y => bool_decide (x = y)
  | _, _ => false
  end.

Definition manager_inicial : Manager :=
  {| config := ∅; status_radares := ∅; eventos_recentes := [] |}.

(** An event as a radar reports it, reduced to its uuid. *)
Definition evento (u : string) : json := JObj {[ "uuid" := JStr u ]}.

(** A probe of the radar [rid] that answers its status and a page of
    events with the uuids [us]. *)
Definition sondagem (rid : string) (us : list string) : Sondagem :=
  {| so_agora := "2024-01-01T00:00:00"; so_radar_id := rid;
     so_info := JObj {[ "ip" := JStr "192.168.1.50" ]};
     so_resp := {| resp_status := (JObj ∅, 200);
                   resp_eventos := (JArr (evento <$> us), 200) |} |}.

(** The five uuids [<rid>-0] ... [<rid>-4] of a busy radar. *)
Definition cinco (rid : string) : list string :=
  (fun k => rid +:+ "-" +:+ k) <$> ["0"; "1"; "2"; "3"; "4"].

(** One polling cycle over eleven radars, the first with one event [u] and
    the ten others with five events each, and the first radar again at the
    start of the next cycle, its newest event still [u]. *)
Definition dois_ciclos : list Sondagem :=
  sondagem "r1" ["u"]
  :: ((fun rid => sondagem rid (cinco rid))
        <$> ["r2"; "r3"; "r4"; "r5"; "r6"; "r7"; "r8"; "r9"; "r10"; "r11"])
  ++ [sondagem "r1" ["u"]].

Definition cfg_exemplo : RadarService.Config :=
  {| RadarService.RADAR_ID := "r1"; RadarService.RADAR_NAME := "portaria";
     RadarService.API_TOKEN := "mude-este-token";
     RadarService.SENSOR_DIST_M := 1.0; RadarService.SPEED_LIMIT := 20.0;
     RadarService.PG_AVAILABLE := true; RadarService.PG_HOST := "10.0.0.2" |}.

Definition radar_vazio (slot : option float) : RadarService.Radar :=
  {| RadarService.sensor_a_tempo := slot;
     RadarService.sqlite :=
       {| RadarService.deteccoes := []; RadarService.sqlite_sequence := 0 |};
     RadarService.eventos_realtime := [] |}.

(** A detection of 18.5 km/h waiting for its first push. *)
Definition det_u1 : RadarService.Deteccao :=
  {| RadarService.det_id := 1; RadarService.det_uuid := "u1";
     RadarService.det_radar_id := "r1";
     RadarService.det_timestamp := "2024-01-01T00:00:00";
     RadarService.det_velocidade := 18.5;
     RadarService.det_direcao := "A->B";
     RadarService.det_acima_limite := 0;
     RadarService.det_sincronizado := 0 |}.

Definition db_pendente : RadarService.Sqlite :=
  {| RadarService.deteccoes := [det_u1]; RadarService.sqlite_sequence := 1 |}.

(** A cycle that reaches the central store and pushes [det_u1]. *)
Definition ciclo_u1 : Termos.Ciclo :=
  {| Termos.ci_cfg := cfg_exemplo; Termos.ci_db := db_pendente;
     Termos.ci_rejeita := fun _ => false; Termos.ci_conecta := true |}.

(** The edge node with no central host configured. *)
Definition cfg_sem_central : RadarService.Config :=
  {| RadarService.RADAR_ID := "r1"; RadarService.RADAR_NAME := "portaria";
     RadarService.API_TOKEN := "mude-este-token";
     RadarService.SENSOR_DIST_M := 1.0; RadarService.SPEED_LIMIT := 20.0;
     RadarService.PG_AVAILABLE := true; RadarService.PG_HOST := "" |}.

(** A registry entry and the answers of a radar that is down. *)
Definition info_r1 : gmap string json :=
  {[ "ip" := JStr "192.168.1.50"; "radar_nome" := JStr "portaria" ]}.


(** Two manager configurations and two [.env] files, each pair alike but
    for the password. *)
Definition config_sem_senha : gmap string json :=
  {[ "pg_host" := JStr "10.0.0.2"; "pg_port" := JInt 5432 ]}.

Definition env_a : list string := ["RADAR_ID=r1"; "PG_PASS=segredo"; "PG_DB=radares"].
Definition env_b : list string := ["RADAR_ID=r1"; "PG_PASS=outra"; "PG_DB=radares"].

End Exemplos.

(** * More of the services *)

(** What a handler answers when it can also fail: the body of a 200, or
    the status code of an [abort] or of an uncaught exception (500). *)
Inductive http (A : Type) : Type :=
| Corpo (a : A)
| Falha (codigo : Z).
Arguments Corpo {A} a.
Arguments Falha {A} codigo.

(** ** [raspberry/radar_service.py]: status, history and the sync loop *)
Module RadarServiceApi.

Import RadarService.

(** The rest of the settings, and whether [RPi.GPIO] could be imported. *)
Record Ajustes : Type := {
  RADAR_LOCATION : string;
  GPIO_AVAILABLE : bool;
  SENSOR_A_PIN : Z;
  SENSOR_B_PIN : Z;
  PG_PORT : Z;
  PG_DB : string;
  PG_USER : string;
  PG_PASS : string;
  SQLITE_PATH : string;
  SYNC_INTERVAL : Z;
  API_PORT : Z }.

(** A handler behind [@requer_token] that can fail on its own. *)
Definition autenticado {A : Type} (cfg : Config) (auth : string)
    (r : http A) : http A :=
  match requer_token cfg auth r with
  | Abort401 => Falha 401
  | Json r' => r'
  end.

(** [SELECT ... ORDER BY id DESC LIMIT 1]: the row of greatest id. *)
Definition ultima_linha (rows : list Deteccao) : option Deteccao :=
  foldl (fun acc r =>
           match acc with
           | Some a => if Z.ltb (det_id a) (det_id r) then Some r else Some a
           | None => Some r
           end) None rows.

(** The JSON object of [GET /api/status]. *)
Record Status : Type := {
  s_radar_id : string;
  s_radar_nome : string;
  s_localizacao : string;
  s_limite_velocidade : float;
  s_total_deteccoes : nat;
  s_pendentes_sync : nat;
  s_postgresql_conectado : bool;
  s_gpio_ativo : bool;
  s_ultima_deteccao : option (float * string);
  s_timestamp : string }.

(** [api_status]: the three SELECTs, a connection attempt, the answer. *)
Definition api_status (cfg : Config) (aj : Ajustes) (auth agora : string)
    (central : option Postgres) (db : Sqlite) : resposta Status :=
  requer_token cfg auth
    {| s_radar_id := RADAR_ID cfg;
       s_radar_nome := RADAR_NAME cfg;
       s_localizacao := RADAR_LOCATION aj;
       s_limite_velocidade := SPEED_LIMIT cfg;
       s_total_deteccoes := length (deteccoes db);
       s_pendentes_sync :=
         length (filter (fun r => det_sincronizado r = 0) (deteccoes db));
       s_postgresql_conectado :=
         match get_pg_connection cfg central with
         | Some _ => true
         | None => false
         end;
       s_gpio_ativo := GPIO_AVAILABLE aj;
       s_ultima_deteccao :=
         (fun r => (det_velocidade r, det_timestamp r))
           <$> ultima_linha (deteccoes db);
       s_timestamp := agora |}.

(** An integer SQLite can bind: [sqlite3] raises OverflowError on others. *)
Definition int64 (z : Z) : bool :=
  Z.leb (- 2 ^ 63) z && Z.ltb z (2 ^ 63).

(** [api_deteccoes]: [limite] and [offset] are the two query arguments
    after [int(...)] (50 and 0 without them).
    [SELECT * FROM deteccoes ORDER BY id DESC LIMIT ? OFFSET ?] on the
    table kept in rowid order; SQLite reads a negative LIMIT as no limit
    and a negative OFFSET as 0. *)
Definition api_deteccoes (cfg : Config) (auth : string) (limite offset : Z)
    (db : Sqlite) : http (list Deteccao) :=
  autenticado cfg auth
    (if int64 limite && int64 offset then
       let rows := drop (Z.to_nat offset) (reverse (deteccoes db)) in
       Corpo (if Z.ltb limite 0 then rows else take (Z.to_nat limite) rows)
     else Falha 500).

(** What one pass of [loop_sincronizacao] meets: the statements the store
    refuses and whether the connection gets through. *)
Record Tentativa : Type := {
  te_rejeita : Deteccao -> bool;
  te_conecta : bool }.

(** One pass of the loop, on the local buffer and the central database. *)
Definition passo_sincronizacao (cfg : Config) (s : Sqlite * Postgres)
    (t : Tentativa) : Sqlite * Postgres :=
  let r := sincronizar_com_central cfg (te_rejeita t)
             (if te_conecta t then Some s.2 else None) s.1 in
  (r.1, default s.2 r.2).

(** [loop_sincronizacao] along the passes of [ts]. *)
Definition loop_sincronizacao (cfg : Config) (ts : list Tentativa)
    (s : Sqlite * Postgres) : Sqlite * Postgres :=
  foldl (passo_sincronizacao cfg) s ts.

End RadarServiceApi.

(** ** More [str] methods *)
Module PyStrMais.

(** [p in s] *)
Fixpoint contem (p s : string) : bool :=
  PyStr.startswith p s
  || match s with
     | EmptyString => false
     | String _ r => contem p r
     end.

(** [s.split(c)] for a one-character separator. *)
Fixpoint split (c : ascii) (s : string) : list string :=
  match s with
  | EmptyString => [EmptyString]
  | String d r =>
      if Ascii.eqb d c then EmptyString :: split c r
      else match split c r with
           | h :: t => String d h :: t
           | [] => [String d EmptyString]
           end
  end.

End PyStrMais.

(** ** [manager_server.py]: discovery, registry and the event feed *)
Module ManagerApi.

Import ManagerServer.

(** [GET /api/eventos]: [list(eventos_recentes[:50])] *)
Definition api_eventos (st : Manager) : list (gmap string json) :=
  take 50 (eventos_recentes st).

(** A unit of the event feed: [data: <json.dumps(ev)>] or a heartbeat. *)
Inductive chunk : Type :=
| Dados (ev : gmap string json)
| Heartbeat (agora : string).

(** One turn of the [while True] of [gerar] in [api_stream], on the buffer
    as it is then: what is sent, and [ultimo_tamanho] afterwards. *)
Definition gerar_passo (agora : string) (ultimo_tamanho : nat)
    (buf : list (gmap string json)) : list chunk * nat :=
  let tamanho_atual := length buf in
  if (ultimo_tamanho <? tamanho_atual)%nat then
    ((Dados <$> reverse (take (tamanho_atual - ultimo_tamanho) buf))
       ++ [Heartbeat agora],
     tamanho_atual)
  else ([Heartbeat agora], ultimo_tamanho).

(** The feed of one subscriber along the turns of [vistas], each with its
    clock and the buffer it finds. *)
Fixpoint gerar (ultimo_tamanho : nat)
    (vistas : list (string * list (gmap string json))) : list chunk :=
  match vistas with
  | [] => []
  | (agora, buf) :: vistas' =>
      let r := gerar_passo agora ultimo_tamanho buf in
      r.1 ++ gerar r.2 vistas'
  end.

(** [GET /api/stream]: [ultimo_tamanho = 0] at the start. *)
Definition api_stream (vistas : list (string * list (gmap string json)))
  : list chunk :=
  gerar 0 vistas.

Definition campos_permitidos : list string :=
  ["pg_host"; "pg_port"; "pg_db"; "pg_user"; "pg_pass"; "api_token";
   "speed_limit"; "sensor_dist_m"; "sensor_a_pin"; "sensor_b_pin";
   "sync_interval"].

(** [POST /api/config], as the [config] it leaves. With a payload that is
    no object, [campo in dados] or [dados[campo]] raises, or no field is
    found: [config] stays as it was. *)
Definition api_set_config (dados : json) (config : gmap string json)
  : gmap string json :=
  match dados with
  | JObj dados =>
      foldl (fun config campo =>
               match dados !! campo with
               | Some v => <[campo := v]> config
               | None => config
               end) config campos_permitidos
  | _ => config
  end.

(** [descobrir_radar]: [r] is what the GET of [/api/ping] gives, [None]
    when [requests] raises (no answer within [SCAN_TIMEOUT], refused, ...),
    else the status code and the decoded body, [None] for a body that is
    not JSON. *)
Definition descobrir_radar (ip : string) (r : option (Z * option json))
  : option (gmap string json) :=
  match r with
  | Some (code, corpo) =>
      if Z.eqb code 200 then
        match corpo with
        | Some (JObj dados) =>
            match dados !! "servico" with
            | Some (JStr servico) =>
                if bool_decide (servico = "radar")
                then Some (dados ∪ {[ "ip" := JStr ip ]})
                else None
            | _ => None
            end
        | _ => None
        end
      else None
  | None => None
  end.

(** A host of the scanned range: its address and what it answers, and the
    clock when its thread registers it. *)
Record Sonda : Type := {
  sd_ip : string;
  sd_resposta : option (Z * option json);
  sd_agora : string }.

(** [checar_ip], the thread of one host, on [encontrados] and [config].
    An exception in the thread (no registry, a registry that is no dict, no
    [radar_id] or an unhashable one) ends it after the [append]. The
    result is [None] for what this embedding leaves out: a [radar_id] that
    is [null], a boolean or a number. *)
Definition checar_ip (s : list (gmap string json) * gmap string json)
    (h : Sonda) : option (list (gmap string json) * gmap string json) :=
  match descobrir_radar (sd_ip h) (sd_resposta h) with
  | None => Some s
  | Some r =>
      let encontrados := s.1 ++ [r] in
      match r !! "radar_id" with
      | Some (JStr radar_id) =>
          match s.2 !! "radares_conhecidos" with
          | Some (JObj conhecidos) =>
              Some (encontrados,
                    <["radares_conhecidos" :=
                        JObj (<[radar_id :=
                                  JObj {[ "ip" := JStr (sd_ip h);
                                          "radar_nome" :=
                                            get_or r "radar_nome" (JStr "");
                                          "descoberto_em" :=
                                            JStr (sd_agora h) ]}]>
                                conhecidos)]> s.2)
          | _ => Some (encontrados, s.2)
          end
      | Some (JArr _) | Some (JObj _) | None => Some (encontrados, s.2)
      | Some _ =>
          match s.2 !! "radares_conhecidos" with
          | None => Some (encontrados, s.2)
          | Some _ => None
          end
      end
  end.


Definition e_dict (v : json) : bool :=
  match v with JObj _ => true | _ => false end.

(** The entry of one radar in the answer of [api_radares]. *)
Definition linha_radar (st : Manager) (radar_id : string) (info : json)
  : gmap string json :=
  let info := match info with JObj info => info | _ => ∅ end in
  let status := default ∅ (status_radares st !! radar_id) in
  status ∪
  {[ "radar_id" := JStr radar_id;
     "ip" := get info "ip";
     "radar_nome" := get_or info "radar_nome" (JStr radar_id);
     "descoberto_em" := get info "descoberto_em";
     "online" := get_or status "online" (JBool false) ]}.

(** [GET /api/radares], the list as a map from the radar id (its order is
    the registry's and is left out). A missing or non-dict registry, or
    an entry that is no dict, raises. *)
Definition api_radares (st : Manager) : http (gmap string (gmap string json)) :=
  match config st !! "radares_conhecidos" with
  | Some (JObj conhecidos) =>
      if bool_decide (map_Forall (fun _ info => e_dict info = true) conhecidos)
      then Corpo (map_imap (fun radar_id info =>
                              Some (linha_radar st radar_id info)) conhecidos)
      else Falha 500
  | _ => Falha 500
  end.

(** [radar_id in v]: [None] when it raises TypeError. *)
Definition pertence (radar_id : string) (v : json) : option bool :=
  match v with
  | JObj o => Some (bool_decide (is_Some (o !! radar_id)))
  | JArr l =>
      Some (existsb (fun x => match x with
                              | JStr s => bool_decide (s = radar_id)
                              | _ => false
                              end) l)
  | JStr s => Some (PyStrMais.contem radar_id s)
  | _ => None
  end.

(** [DELETE /api/radares/<radar_id>/remover]: the state it leaves and the
    status code. *)
Definition api_radar_remover (radar_id : string) (st : Manager)
  : Manager * Z :=
  match config st !! "radares_conhecidos" with
  | None => (st, 500)
  | Some conhecidos =>
      match pertence radar_id conhecidos, conhecidos with
      | None, _ => (st, 500)
      | Some true, JObj o =>
          ({| config := <["radares_conhecidos" := JObj (delete radar_id o)]>
                          (config st);
              status_radares := delete radar_id (status_radares st);
              eventos_recentes := eventos_recentes st |}, 200)
      | Some true, _ => (st, 500)
      | Some false, _ =>
          ({| config := config st;
              status_radares := delete radar_id (status_radares st);
              eventos_recentes := eventos_recentes st |}, 200)
      end
  end.

(** [detectar_rede_local]: [ip_local] is the address of the socket, [None]
    when the socket calls raise. *)
Definition detectar_rede_local (ip_local : option string) : string :=
  match ip_local with
  | Some ip =>
      match PyStrMais.split "."%char ip with
      | p0 :: p1 :: p2 :: _ => p0 +:+ "." +:+ p1 +:+ "." +:+ p2 +:+ ".0/24"
      | _ => "192.168.1.0/24"
      end
  | None => "192.168.1.0/24"
  end.

End ManagerApi.

(** ** [raspberry/radar_service.py] and [radar_config_routes.py]: writing
    and reading [/etc/radar/.env] *)
Module RadarConfigApi.

Import RadarService RadarServiceApi ManagerServer.

(** A character at which [str.splitlines] cuts (below 256). *)
Definition quebra (c : ascii) : bool :=
  let n := nat_of_ascii c in
  ((10 <=? n) && (n <=? 13) || (28 <=? n) && (n <=? 30) || (n =? 133))%nat.

(** [s.splitlines()]; [\r\n] counts as one cut. *)
Fixpoint splitlines (s : string) : list string :=
  match s with
  | EmptyString => []
  | String c r =>
      if quebra c then
        EmptyString ::
          match r with
          | String d r' =>
              if Ascii.eqb c "013"%char && Ascii.eqb d "010"%char
              then splitlines r' else splitlines r
          | EmptyString => []
          end
      else
        match splitlines r with
        | h :: t => String c h :: t
        | [] => [String c EmptyString]
        end
  end.

(** ["\n".join(linhas) + "\n"] for a list that is not empty. *)
Definition juntar (linhas : list string) : string :=
  foldr (fun l acc => l +:+ String "010"%char acc) EmptyString linhas.

Section Configurar.

Variable cfg : Config.
Variable aj : Ajustes.

(** [str(v)] for a decoded value that is not a string. *)
Variable str_de : json -> string.

(** What an f-string puts for [v]. *)
Definition texto (v : json) : string :=
  match v with
  | JStr s => s
  | _ => str_de v
  end.

(** The names and the values of the lines [api_configurar] writes for the
    payload [dados]. *)
Definition valores (dados : gmap string json) : list (string * string) :=
  [ ("RADAR_ID", RADAR_ID cfg);
    ("RADAR_NAME", texto (get_or dados "radar_name" (JStr (RADAR_NAME cfg))));
    ("RADAR_LOCATION",
       texto (get_or dados "radar_location" (JStr (RADAR_LOCATION aj))));
    ("API_TOKEN", texto (get_or dados "api_token" (JStr (API_TOKEN cfg))));
    ("SENSOR_A_PIN",
       texto (get_or dados "sensor_a_pin" (JInt (SENSOR_A_PIN aj))));
    ("SENSOR_B_PIN",
       texto (get_or dados "sensor_b_pin" (JInt (SENSOR_B_PIN aj))));
    ("SENSOR_DIST_M",
       texto (get_or dados "sensor_dist_m" (JFloat (SENSOR_DIST_M cfg))));
    ("SPEED_LIMIT",
       texto (get_or dados "speed_limit" (JFloat (SPEED_LIMIT cfg))));
    ("PG_HOST", texto (get_or dados "pg_host" (JStr (PG_HOST cfg))));
    ("PG_PORT", texto (get_or dados "pg_port" (JInt (PG_PORT aj))));
    ("PG_DB", texto (get_or dados "pg_db" (JStr (PG_DB aj))));
    ("PG_USER", texto (get_or dados "pg_user" (JStr (PG_USER aj))));
    ("PG_PASS", texto (get_or dados "pg_pass" (JStr (PG_PASS aj))));
    ("SQLITE_PATH", SQLITE_PATH aj);
    ("SYNC_INTERVAL",
       texto (get_or dados "sync_interval" (JInt (SYNC_INTERVAL aj))));
    ("API_PORT", texto (JInt (API_PORT aj))) ].

Definition linha_env (kv : string * string) : string :=
  kv.1 +:+ "=" +:+ kv.2.

(** [POST /api/configurar]: [dados] is the decoded payload, [env] the text
    of [/etc/radar/.env] ([None] without the file); the text afterwards and
    the status code. *)
Definition api_configurar (auth : string) (dados : json)
    (env : option string) : option string * Z :=
  match requer_token cfg auth tt with
  | Abort401 => (env, 401)
  | Json _ =>
      if negb (truthy dados) then (env, 400)
      else match dados with
           | JObj dados => (Some (juntar (linha_env <$> valores dados)), 200)
           | _ => (env, 500)
           end
  end.

End Configurar.

(** A text [str.splitlines] does not cut. *)
Definition sem_quebra (s : string) : bool :=
  forallb (fun c => negb (quebra c)) (list_ascii_of_string s).

(** A name that [api_config_local] reads back as it is: not empty, no
    white space, no [=], no [#] in front. *)
Definition chave_simples (k : string) : bool :=
  match k with
  | EmptyString => false
  | String c _ =>
      negb (Ascii.eqb c "#"%char)
      && forallb (fun c => negb (PyStr.isspace c) && negb (Ascii.eqb c "="%char))
           (list_ascii_of_string k)
  end.

End RadarConfigApi.

(** * More vocabulary *)

Module TermosMais.

Import RadarService RadarServiceApi.

(** The rows still to be pushed, all of them. *)
Definition pendentes (db : Sqlite) : list Deteccao :=
  filter (fun r => det_sincronizado r = 0) (deteccoes db).

(** What the constraints of [deteccoes] and AUTOINCREMENT keep true of the
    local table: distinct uuids, ids that grow along the table and none
    above the counter. *)
Definition integra (db : Sqlite) : Prop :=
  NoDup (det_uuid <$> deteccoes db)
  /\ (forall (i j : nat) (ri rj : Deteccao),
        (i < j)%nat -> deteccoes db !! i = Some ri ->
        deteccoes db !! j = Some rj -> det_id ri < det_id rj)
  /\ Forall (fun r => det_id r <= sqlite_sequence db) (deteccoes db).

(** A pass that reaches the store and has nothing refused. *)
Definition passo_bom : Tentativa :=
  {| te_rejeita := fun _ => false; te_conecta := true |}.

Import RadarConfigApi.

(** The characters a simple name is made of. *)
Definition letras (k : string) : bool :=
  forallb (fun c => negb (PyStr.isspace c) && negb (Ascii.eqb c "="%char))
    (list_ascii_of_string k).

(** The map a list of names and values reads back as. *)
Definition lido (config : gmap string string) (kv : string * string)
  : gmap string string :=
  if bool_decide (kv.1 = "PG_PASS") then config
  else <[kv.1 := PyStr.strip kv.2]> config.

(** What an answer of [GET /api/config-local] shows under the name [k]. *)
Definition campo (r : resposta (gmap string string)) (k : string)
  : option string :=
  match r with
  | Json m => m !! k
  | Abort401 => None
  end.

End TermosMais.

(** * More worked runs *)

Module ExemplosMais.

Import ManagerServer ManagerApi.

Definition aj_exemplo : RadarServiceApi.Ajustes :=
  {| RadarServiceApi.RADAR_LOCATION := "Portaria"%string;
     RadarServiceApi.GPIO_AVAILABLE := true;
     RadarServiceApi.SENSOR_A_PIN := 17;
     RadarServiceApi.SENSOR_B_PIN := 27;
     RadarServiceApi.PG_PORT := 5432;
     RadarServiceApi.PG_DB := "radares";
     RadarServiceApi.PG_USER := "radar";
     RadarServiceApi.PG_PASS := "segredo";
     RadarServiceApi.SQLITE_PATH := "/var/lib/radar/radar_local.db";
     RadarServiceApi.SYNC_INTERVAL := 30;
     RadarServiceApi.API_PORT := 5000 |}.

(** A stand-in for [str] on the numbers of the runs below. *)
Definition str_de_exemplo (v : json) : string :=
  match v with
  | JInt 17 => "17"
  | JInt 27 => "27"
  | JInt 30 => "30"
  | JInt 5432 => "5432"
  | JInt 5000 => "5000"
  | JFloat f => if PrimFloat.eqb f 20 then "20.0" else "1.0"
  | _ => "None"
  end.

Definition token_exemplo : string := "Bearer mude-este-token".

(** The central store before any table exists. *)
Definition pg_vazio : RadarService.Postgres :=
  {| RadarService.radar_deteccoes := None |}.

(** A full live buffer. *)
Definition buffer_cheio : list (gmap string json) :=
  replicate 200 {[ "uuid" := JStr "antigo" ]}.

Definition ev_a : gmap string json := {[ "uuid" := JStr "a" ]}.
Definition ev_b : gmap string json := {[ "uuid" := JStr "b" ]}.



(** The manager that knows the radar [r1] and has not polled it yet. *)
Definition manager_r1 : Manager :=
  {| config := {[ "radares_conhecidos" :=
                    JObj {[ "r1" := JObj Exemplos.info_r1 ]} ]};
     status_radares := ∅;
     eventos_recentes := [] |}.

(** A password that holds a line break, and the lines of the [.env] that
    [POST /api/configurar] writes for the payload [{"pg_pass": senha}]. *)
Definition senha_quebrada (resto : string) : string :=
  "segredo" +:+ String "010"%char ("NOTA=" +:+ resto).

Definition gravado (senha : string) : option (list string) :=
  RadarConfigApi.splitlines <$>
    (RadarConfigApi.api_configurar Exemplos.cfg_exemplo aj_exemplo
       str_de_exemplo token_exemplo (JObj {[ "pg_pass" := JStr senha ]})
       None).1.

(** A [.env] that sets the password in the [export] form, which
    [load_dotenv] reads as [PG_PASS]. *)
Definition env_export (senha : string) : list string :=
  ["RADAR_ID=r1"; "export PG_PASS=" +:+ senha].

End ExemplosMais.

(** * Properties *)

Import Termos Exemplos.

(** ** Comparison laws of binary64 floats *)

Module FloatOrder.

Lemma SFcompare_antisym (x y : spec_float) (c : comparison) :
  SFcompare x y = Some c -> SFcompare y x = Some (CompOpp c).
Proof.
  destruct x as [sx|sx| |sx mx ex], y as [sy|sy| |sy my ey]; simpl;
    intros H; try discriminate; injection H as <-;
    repeat match goal with b : bool |- _ => destruct b end; simpl;
    try reflexivity.
  all: rewrite (Z.compare_antisym ey ex);
    destruct (ey ?= ex)%Z; simpl; try reflexivity;
    f_equal; rewrite ?CompOpp_involutive;
    rewrite Pos.compare_cont_antisym; reflexivity.
Qed.

Lemma SFcompare_refl (x : spec_float) (c : comparison) (y : spec_float) :
  SFcompare x y = Some c -> SFcompare x x = Some Eq.
Proof.
  destruct x as [sx|sx| |sx mx ex]; simpl; try reflexivity.
  - intros _. destruct sx; reflexivity.
  - destruct y; discriminate.
  - intros _. rewrite Z.compare_refl.
    change (Pos.compare_cont Eq mx mx) with (mx ?= mx)%positive.
    rewrite Pos.compare_refl. destruct sx; reflexivity.
Qed.

(** [a < b] excludes [b <= a]. *)
Lemma ltb_not_leb (a b : float) :
  PrimFloat.ltb a b = true -> PrimFloat.leb b a = false.
Proof.
  rewrite FloatAxioms.ltb_spec, FloatAxioms.leb_spec. unfold SFltb, SFleb.
  destruct (SFcompare (Prim2SF a) (Prim2SF b)) as [c|] eqn:E; [|discriminate].
  rewrite (SFcompare_antisym _ _ _ E). destruct c; simpl; congruence.
Qed.

(** [a <= b] excludes [b < a]. *)
Lemma leb_not_ltb (a b : float) :
  PrimFloat.leb a b = true -> PrimFloat.ltb b a = false.
Proof.
  rewrite FloatAxioms.ltb_spec, FloatAxioms.leb_spec. unfold SFltb, SFleb.
  destruct (SFcompare (Prim2SF a) (Prim2SF b)) as [c|] eqn:E; [|discriminate].
  rewrite (SFcompare_antisym _ _ _ E). destruct c; simpl; congruence.
Qed.

(** A float that compares [<=] to anything is a number. *)
Lemma leb_not_nan (a b : float) :
  PrimFloat.leb a b = true -> PrimFloat.is_nan a = false.
Proof.
  unfold PrimFloat.is_nan. rewrite FloatAxioms.leb_spec, FloatAxioms.eqb_spec. unfold SFleb, SFeqb.
  destruct (SFcompare (Prim2SF a) (Prim2SF b)) as [c|] eqn:E; [|discriminate].
  rewrite (SFcompare_refl _ _ _ E). reflexivity.
Qed.

End FloatOrder.

(** ** The sensor pair *)

Section SensorTimer.

Import RadarService.

Variable cfg : Config.
Variable round2 : float -> float.

Lemma salvar_deteccao_ok (v : float) (dir uid ts : string) (db : Sqlite) :
  PrimFloat.is_nan v = false ->
  tem_uuid uid (deteccoes db) = false ->
  salvar_deteccao cfg v dir uid ts db =
    Returned
      {| deteccoes := deteccoes db ++
           [ {| det_id := sqlite_sequence db + 1; det_uuid := uid;
                det_radar_id := RADAR_ID cfg; det_timestamp := ts;
                det_velocidade := v; det_direcao := dir;
                det_acima_limite :=
                  if PrimFloat.ltb (SPEED_LIMIT cfg) v then 1 else 0;
                det_sincronizado := 0 |} ];
         sqlite_sequence := sqlite_sequence db + 1 |}.
Proof.
  intros Hnan Hnew. unfold salvar_deteccao. rewrite Hnan, Hnew. reflexivity.
Qed.

(** C8. A B trigger that finds the armed slot empty returns normally and
    leaves the whole state of the node as it was: no detection row, no
    real-time event, the slot still empty. *)
Theorem b_without_a_is_noop (agora : float) (uid ts ts' : string)
    (st : Radar) :
  sensor_a_tempo st = None ->
  callback_sensor_b cfg round2 agora uid ts ts' st = Returned st.
Proof.
  intros Hidle. unfold callback_sensor_b. rewrite Hidle. reflexivity.
Qed.

(** C2. With the slot armed at [t_a], [delta_t = agora - t_a] and
    [v = (SENSOR_DIST_M / delta_t) * 3.6] in binary64 arithmetic: when
    [0 < delta_t <= 10] and [v <= 200] (and the uuid drawn is new to the
    table) the B handler returns with the slot cleared, exactly one row
    appended, whose speed is [v] and whose over-limit flag is 1 exactly when
    [v > SPEED_LIMIT], and exactly one real-time event added, with the same
    strict comparison (the event carries [round(v, 2)]). When
    [delta_t <= 0], [delta_t > 10] or [v > 200], it returns with the slot
    cleared and neither a row nor an event. *)
Theorem b_after_a_measures (agora t_a : float) (uid ts ts' : string)
    (st : Radar) :
  sensor_a_tempo st = Some t_a ->
  let delta_t := (agora - t_a)%float in
  let v := (SENSOR_DIST_M cfg / delta_t * 3.6)%float in
  (PrimFloat.ltb 0 delta_t = true ->
   PrimFloat.leb delta_t 10 = true ->
   PrimFloat.leb v 200 = true ->
   tem_uuid uid (deteccoes (sqlite st)) = false ->
   callback_sensor_b cfg round2 agora uid ts ts' st =
     Returned
       {| sensor_a_tempo := None;
          sqlite :=
            {| deteccoes :=
                 deteccoes (sqlite st) ++
                 [ {| det_id := sqlite_sequence (sqlite st) + 1;
                      det_uuid := uid; det_radar_id := RADAR_ID cfg;
                      det_timestamp := ts; det_velocidade := v;
                      det_direcao := "A->B";
                      det_acima_limite :=
                        if PrimFloat.ltb (SPEED_LIMIT cfg) v then 1 else 0;
                      det_sincronizado := 0 |} ];
               sqlite_sequence := sqlite_sequence (sqlite st) + 1 |};
          eventos_realtime :=
            adicionar_evento_realtime
              {| ev_uuid := uid; ev_radar_id := RADAR_ID cfg;
                 ev_radar_nome := RADAR_NAME cfg;
                 ev_velocidade := round2 v; ev_limite := SPEED_LIMIT cfg;
                 ev_acima_limite := PrimFloat.ltb (SPEED_LIMIT cfg) v;
                 ev_timestamp := ts'; ev_direcao := "A->B" |}
              (eventos_realtime st) |})
  /\
  (PrimFloat.leb delta_t 0 = true \/ PrimFloat.ltb 10 delta_t = true
   \/ PrimFloat.ltb 200 v = true ->
   callback_sensor_b cfg round2 agora uid ts ts' st = Returned (desarmado st)).
Proof.
  intros Harmed delta_t v. split.
  - intros Hpos Hmax Hceil Hnew.
    unfold callback_sensor_b. rewrite Harmed. fold delta_t. fold v.
    rewrite (FloatOrder.ltb_not_leb _ _ Hpos).
    rewrite (FloatOrder.leb_not_ltb _ _ Hmax).
    rewrite (FloatOrder.leb_not_ltb _ _ Hceil).
    cbn [orb sqlite eventos_realtime].
    rewrite (salvar_deteccao_ok v "A->B" uid ts _
               (FloatOrder.leb_not_nan _ _ Hceil) Hnew).
    reflexivity.
  - intros Hdiscard. unfold callback_sensor_b. rewrite Harmed.
    fold delta_t. fold v.
    destruct (PrimFloat.leb delta_t 0) eqn:E0; [reflexivity|].
    destruct (PrimFloat.ltb 10 delta_t) eqn:E10; [reflexivity|].
    destruct Hdiscard as [H|[H|H]]; try discriminate.
    cbn [orb]. rewrite H. reflexivity.
Qed.

End SensorTimer.

Lemma b_without_a_is_noop_witness :
  RadarService.callback_sensor_b cfg_exemplo (fun x => x) 5.0 "u1" "t" "t"
    (radar_vazio None) = Returned (radar_vazio None).
Proof.
  apply (b_without_a_is_noop cfg_exemplo (fun x => x) 5.0 "u1" "t" "t"
           (radar_vazio None)).
  reflexivity.
Defined.

(** A fires at 0 s and B at 0.18 s over 1.0 m: 20.0 km/h, not above a limit
    of 20.0 km/h. *)
Lemma b_after_a_measures_witness :
  RadarService.callback_sensor_b cfg_exemplo (fun x => x) 0.18 "u1" "t" "t"
    (radar_vazio (Some 0%float)) =
  Returned
    {| RadarService.sensor_a_tempo := None;
       RadarService.sqlite :=
         {| RadarService.deteccoes :=
              [ {| RadarService.det_id := 1; RadarService.det_uuid := "u1";
                   RadarService.det_radar_id := "r1";
                   RadarService.det_timestamp := "t";
                   RadarService.det_velocidade := 20.0;
                   RadarService.det_direcao := "A->B";
                   RadarService.det_acima_limite := 0;
                   RadarService.det_sincronizado := 0 |} ];
            RadarService.sqlite_sequence := 1 |};
       RadarService.eventos_realtime :=
         [ {| RadarService.ev_uuid := "u1"; RadarService.ev_radar_id := "r1";
              RadarService.ev_radar_nome := "portaria";
              RadarService.ev_velocidade := 20.0;
              RadarService.ev_limite := 20.0;
              RadarService.ev_acima_limite := false;
              RadarService.ev_timestamp := "t";
              RadarService.ev_direcao := "A->B" |} ] |}.
Proof.
  pose proof (b_after_a_measures cfg_exemplo (fun x => x) 0.18 0%float
                "u1" "t" "t" (radar_vazio (Some 0%float)) eq_refl) as [H _].
  apply H; reflexivity.
Defined.

(** ** The real-time buffer of the edge node *)

Section RealtimeBuffer.

Import RadarService.

Lemma adicionar_evento_realtime_cases (dados : Evento) (buf : list Evento) :
  (length buf <= 50)%nat ->
  adicionar_evento_realtime dados buf =
    if (length buf <? 50)%nat then buf ++ [dados] else drop 1 buf ++ [dados].
Proof.
  intros Hlen. unfold adicionar_evento_realtime.
  rewrite length_app. cbn [length].
  destruct (Nat.ltb_spec (length buf) 50) as [Hlt|Hge].
  - destruct (Nat.ltb_spec 50 (length buf + 1)); [lia|reflexivity].
  - destruct (Nat.ltb_spec 50 (length buf + 1)); [|lia].
    destruct buf as [|e buf]; [simpl in Hge; lia|reflexivity].
Qed.

Lemma adicionar_evento_realtime_length (dados : Evento) (buf : list Evento) :
  (length buf <= 50)%nat ->
  (length (adicionar_evento_realtime dados buf) <= 50)%nat.
Proof.
  intros Hlen. rewrite adicionar_evento_realtime_cases by assumption.
  destruct (Nat.ltb_spec (length buf) 50);
    rewrite length_app, ?length_drop; cbn [length]; lia.
Qed.

Lemma buffer_apos_length (hist : list Evento) :
  (length (buffer_apos hist) <= 50)%nat.
Proof.
  induction hist as [|dados hist IH] using rev_ind.
  - simpl. lia.
  - unfold buffer_apos. rewrite foldl_app. cbn [foldl].
    apply adicionar_evento_realtime_length, IH.
Qed.

(** C9. Whatever events were added so far, the edge buffer holds at most 50
    entries; one more event is appended as it is below 50 entries, and at 50
    the oldest entry (the head) is dropped and the new one appended; and the
    events endpoint answers 401 or, to the holder of the token, the 20
    newest entries at most, newest first. *)
Theorem edge_buffer_bounded (cfg : Config) (auth : string)
    (hist : list Evento) (dados : Evento) :
  let buf := buffer_apos hist in
  (length buf <= 50)%nat
  /\ adicionar_evento_realtime dados buf =
       (if (length buf <? 50)%nat then buf ++ [dados]
        else drop 1 buf ++ [dados])
  /\ api_eventos cfg auth buf = requer_token cfg auth (take 20 (reverse buf))
  /\ (length (take 20 (reverse buf)) <= 20)%nat.
Proof.
  intros buf. pose proof (buffer_apos_length hist) as Hlen. fold buf in Hlen.
  repeat split.
  - exact Hlen.
  - apply adicionar_evento_realtime_cases, Hlen.
  - unfold api_eventos. rewrite take_reverse. reflexivity.
  - rewrite length_take. lia.
Qed.

End RealtimeBuffer.

(** ** The local buffer and its synchronisation *)

Section SyncAgent.

Import RadarService.

Lemma det_uuid_com_sincronizado (r : Deteccao) (v : Z) :
  det_uuid (com_sincronizado r v) = det_uuid r.
Proof. reflexivity. Qed.

Lemma com_sincronizado_id (r : Deteccao) :
  com_sincronizado r (det_sincronizado r) = r.
Proof. destruct r; reflexivity. Qed.

Lemma foldl_update_sincronizado (uuids : list string) (rows : list Deteccao) :
  foldl update_sincronizado rows uuids = marcada uuids <$> rows.
Proof.
  revert rows. induction uuids as [|u uuids IH]; intros rows.
  - simpl. induction rows as [|r rows IHr]; [reflexivity|].
    cbn [fmap list_fmap]. rewrite <- IHr. f_equal.
    unfold marcada. rewrite bool_decide_eq_false_2 by apply not_elem_of_nil.
    symmetry. apply com_sincronizado_id.
  - cbn [foldl]. rewrite IH. unfold update_sincronizado.
    rewrite <- list_fmap_compose. apply list_fmap_ext. intros _ r _.
    unfold marcada, compose.
    destruct (decide (det_uuid r = u)) as [->|Hne].
    + rewrite bool_decide_eq_true_2 by reflexivity.
      rewrite (bool_decide_eq_true_2 (u ∈ u :: uuids)) by apply list_elem_of_here.
      cbn [det_uuid com_sincronizado det_sincronizado].
      destruct (bool_decide _); reflexivity.
    + rewrite (bool_decide_eq_false_2 (det_uuid r = u)) by assumption.
      destruct (decide (det_uuid r ∈ uuids)) as [Hin|Hnin].
      * rewrite !bool_decide_eq_true_2; [reflexivity| |assumption].
        apply list_elem_of_further, Hin.
      * rewrite !bool_decide_eq_false_2; [reflexivity| |assumption].
        rewrite elem_of_cons. intros [?|?]; congruence.
Qed.

Lemma marcar_sincronizado_nil (db : Sqlite) : marcar_sincronizado [] db = db.
Proof. destruct db; reflexivity. Qed.


(** C6. When psycopg2 is missing, no host is configured or the connection
    fails, a sync cycle returns with the local buffer and the central
    database exactly as they were, so every pending row is still pending;
    and a detection with a number for speed and a new uuid is then saved,
    unsynchronised, all the same. *)
Theorem offline_cycle_keeps_local (cfg : Config) (rejeita : Deteccao -> bool)
    (central : option Postgres) (db : Sqlite) (v : float)
    (dir uid ts : string) :
  PG_AVAILABLE cfg = false \/ PG_HOST cfg = "" \/ central = None ->
  PrimFloat.is_nan v = false ->
  tem_uuid uid (deteccoes db) = false ->
  sincronizar_com_central cfg rejeita central db = (db, central)
  /\ salvar_deteccao cfg v dir uid ts
       (sincronizar_com_central cfg rejeita central db).1 =
     Returned
       {| deteccoes := deteccoes db ++
            [ {| det_id := sqlite_sequence db + 1; det_uuid := uid;
                 det_radar_id := RADAR_ID cfg; det_timestamp := ts;
                 det_velocidade := v; det_direcao := dir;
                 det_acima_limite :=
                   if PrimFloat.ltb (SPEED_LIMIT cfg) v then 1 else 0;
                 det_sincronizado := 0 |} ];
          sqlite_sequence := sqlite_sequence db + 1 |}.
Proof.
  intros Hoff Hnan Hnew.
  assert (Hcycle : sincronizar_com_central cfg rejeita central db = (db, central)).
  { unfold sincronizar_com_central.
    destruct (get_deteccoes_nao_sincronizadas db); [reflexivity|].
    assert (Hnone : get_pg_connection cfg central = None).
    { unfold get_pg_connection. destruct Hoff as [H|[H|H]].
      - rewrite H. reflexivity.
      - rewrite H. rewrite orb_true_r. reflexivity.
      - rewrite H. destruct (_ || _); reflexivity. }
    rewrite Hnone. reflexivity. }
  split; [exact Hcycle|].
  rewrite Hcycle. cbn [fst]. apply salvar_deteccao_ok; assumption.
Qed.

End SyncAgent.

(** ** The central table under repeated pushes *)

Section CentralStore.

Import RadarService.

Lemma pg_tem_uuid_elem (u : string) (tbl : list PgDeteccao) :
  pg_tem_uuid u tbl = true <-> u ∈ pg_uuid <$> tbl.
Proof.
  unfold pg_tem_uuid. rewrite existsb_exists, list_elem_of_fmap. split.
  - intros (r & Hin & Heq). apply bool_decide_eq_true_1 in Heq.
    exists r. split; [congruence|]. apply list_elem_of_In, Hin.
  - intros (r & -> & Hin). exists r. split.
    + apply list_elem_of_In, Hin.
    + apply bool_decide_eq_true_2. reflexivity.
Qed.

Lemma inserir_present (cfg : Config) (det : Deteccao) (tbl : list PgDeteccao) :
  pg_tem_uuid (det_uuid det) tbl = true -> inserir cfg det tbl = tbl.
Proof. intros H. unfold inserir. rewrite H. reflexivity. Qed.

Lemma inserir_keeps (cfg : Config) (det : Deteccao) (u : string)
    (tbl : list PgDeteccao) :
  u ∈ pg_uuid <$> tbl -> u ∈ pg_uuid <$> inserir cfg det tbl.
Proof.
  intros Hin. unfold inserir. destruct (pg_tem_uuid _ _); [assumption|].
  rewrite fmap_app. apply elem_of_app. left. assumption.
Qed.

Lemma inserir_NoDup (cfg : Config) (det : Deteccao) (tbl : list PgDeteccao) :
  NoDup (pg_uuid <$> tbl) -> NoDup (pg_uuid <$> inserir cfg det tbl).
Proof.
  intros Hnd. unfold inserir.
  destruct (pg_tem_uuid (det_uuid det) tbl) eqn:E; [assumption|].
  rewrite fmap_app. apply NoDup_app. split; [assumption|]. split.
  - intros u Hu Hu'. cbn in Hu'. apply list_elem_of_singleton in Hu'. subst u.
    apply pg_tem_uuid_elem in Hu. congruence.
  - cbn. apply NoDup_singleton.
Qed.

Lemma enviar_conserva (cfg : Config) (rejeita : Deteccao -> bool)
    (P : list PgDeteccao -> Prop) :
  (forall det tbl, P tbl -> P (inserir cfg det tbl)) ->
  forall (pendentes : list Deteccao) (e : Envio),
    P (tabela e) -> P (tabela (foldl (enviar cfg rejeita) e pendentes)).
Proof.
  intros Hins pendentes.
  induction pendentes as [|det pendentes IH]; intros e He; [exact He|].
  cbn [foldl]. apply IH. unfold enviar.
  destruct (abortada e); [exact He|].
  destruct (rejeita det); [exact He|]. cbn [tabela]. apply Hins, He.
Qed.

Lemma ciclo_conserva (P : list PgDeteccao -> Prop) :
  (forall cfg det tbl, P tbl -> P (inserir cfg det tbl)) ->
  forall (c : Ciclo) (pg : Postgres),
    P (garantir_tabela_pg pg) ->
    P (garantir_tabela_pg (central_apos_ciclo pg c)).
Proof.
  intros Hins c pg Hpg. unfold central_apos_ciclo, sincronizar_com_central.
  destruct (get_deteccoes_nao_sincronizadas (ci_db c)) as [|p ps].
  { cbn [snd]. destruct (ci_conecta c); exact Hpg. }
  unfold get_pg_connection.
  destruct (negb (PG_AVAILABLE (ci_cfg c)) || bool_decide (PG_HOST (ci_cfg c) = "")).
  { cbn [snd]. destruct (ci_conecta c); exact Hpg. }
  destruct (ci_conecta c); [|exact Hpg].
  cbn [snd garantir_tabela_pg radar_deteccoes].
  match goal with |- context [abortada ?e] => destruct (abortada e) end.
  - exact Hpg.
  - apply (enviar_conserva (ci_cfg c) (ci_rejeita c) P (Hins (ci_cfg c))).
    exact Hpg.
Qed.

Lemma central_apos_conserva (P : list PgDeteccao -> Prop) :
  (forall cfg det tbl, P tbl -> P (inserir cfg det tbl)) ->
  forall (ciclos : list Ciclo) (pg : Postgres),
    P (garantir_tabela_pg pg) ->
    P (garantir_tabela_pg (central_apos ciclos pg)).
Proof.
  intros Hins ciclos.
  induction ciclos as [|c ciclos IH]; intros pg Hpg; [exact Hpg|].
  unfold central_apos. cbn [foldl]. apply IH, ciclo_conserva; assumption.
Qed.

(** The store that starts without the table never holds a uuid twice. *)
Lemma uuid_unico_reachable (ciclos : list Ciclo) :
  uuid_unico (central_apos ciclos {| radar_deteccoes := None |}).
Proof.
  apply (central_apos_conserva (fun tbl => NoDup (pg_uuid <$> tbl))).
  - intros cfg det tbl. apply inserir_NoDup.
  - cbn. apply NoDup_nil_2.
Qed.

Lemma filter_absent {A : Type} (f : A -> string) (u : string) (l : list A) :
  u ∉ f <$> l -> filter (fun r => f r = u) l = [].
Proof.
  induction l as [|r l IH]; intros Hnin; [reflexivity|].
  rewrite fmap_cons in Hnin. apply not_elem_of_cons in Hnin as [Hne Hnin].
  rewrite filter_cons. destruct (decide (f r = u)); [congruence|].
  apply IH, Hnin.
Qed.

Lemma count_one {A : Type} (f : A -> string) (u : string) (l : list A) :
  NoDup (f <$> l) -> u ∈ f <$> l ->
  length (filter (fun r => f r = u) l) = 1%nat.
Proof.
  induction l as [|r l IH]; intros Hnd Hin.
  - cbn in Hin. apply not_elem_of_nil in Hin. contradiction.
  - rewrite fmap_cons in Hnd, Hin. apply NoDup_cons in Hnd as [Hr Hnd].
    rewrite filter_cons. destruct (decide (f r = u)) as [Heq|Hne].
    + cbn [length]. subst u. rewrite filter_absent by assumption. reflexivity.
    + apply IH; [assumption|].
      apply elem_of_cons in Hin as [Heq|Hin]; [congruence|assumption].
Qed.

(** C1. In a central store filled by sync cycles (of any radars, from the
    moment the table did not exist), take a detection whose uuid is already
    there: the upsert of that detection leaves the table as it is, however
    often it is repeated, and after any further sync cycles exactly one row
    carries that uuid. *)
Theorem push_is_idempotent (antes depois : list Ciclo) (cfg : Config)
    (det : Deteccao) (n : nat) :
  let pg := central_apos antes {| radar_deteccoes := None |} in
  pg_tem_uuid (det_uuid det) (garantir_tabela_pg pg) = true ->
  inserir cfg det (garantir_tabela_pg pg) = garantir_tabela_pg pg
  /\ Nat.iter n (inserir cfg det) (garantir_tabela_pg pg) =
       garantir_tabela_pg pg
  /\ linhas_com_uuid (det_uuid det) (central_apos depois pg) = 1%nat.
Proof.
  intros pg Hpres.
  assert (Hone : inserir cfg det (garantir_tabela_pg pg) = garantir_tabela_pg pg)
    by (apply inserir_present, Hpres).
  split; [exact Hone|]. split.
  - induction n as [|n IH]; [reflexivity|].
    rewrite Nat.iter_succ, IH. exact Hone.
  - unfold linhas_com_uuid.
    assert (Hc : conserva (det_uuid det)
                   (garantir_tabela_pg (central_apos depois pg))).
    { apply (central_apos_conserva (conserva (det_uuid det))).
      - intros cfg' det' tbl [Hnd Hin]. split.
        + apply inserir_NoDup, Hnd.
        + apply inserir_keeps, Hin.
      - split.
        + apply uuid_unico_reachable.
        + apply pg_tem_uuid_elem, Hpres. }
    destruct Hc as [Hnd Hin]. apply count_one; assumption.
Qed.

End CentralStore.

(** ** What the configuration reads disclose *)

Section Secrets.

Import RadarConfigRoutes ManagerServer.

Lemma rstrip_cons_nonspace (c : ascii) (r : string) :
  PyStr.isspace c = false ->
  PyStr.rstrip (String c r) = String c (PyStr.rstrip r).
Proof.
  intros Hc. cbn [PyStr.rstrip]. rewrite Hc.
  destruct (PyStr.rstrip r); reflexivity.
Qed.

(** A line [PG_PASS=<anything>] adds nothing to the answer. *)
Lemma ler_linha_senha (config : gmap string string) (p : string) :
  ler_linha config ("PG_PASS=" +:+ p) = config.
Proof.
  unfold ler_linha, PyStr.strip.
  change ("PG_PASS=" +:+ p) with
    (String "P" (String "G" (String "_" (String "P" (String "A"
      (String "S" (String "S" (String "=" p)))))))).
  rewrite !rstrip_cons_nonspace by reflexivity.
  reflexivity.
Qed.

Lemma foldl_ler_linha_senha (env1 env2 : list string) :
  Forall2 mesma_linha_ou_senha env1 env2 ->
  forall config, foldl ler_linha config env1 = foldl ler_linha config env2.
Proof.
  induction 1 as [|a b env1 env2 Hab _ IH]; intros config; [reflexivity|].
  cbn [foldl]. destruct Hab as [->|(p & q & -> & ->)]; [apply IH|].
  rewrite !ler_linha_senha. apply IH.
Qed.

Lemma ler_linha_sem_senha (config : gmap string string) (linha : string) :
  config !! "PG_PASS" = None -> ler_linha config linha !! "PG_PASS" = None.
Proof.
  intros Hc. unfold ler_linha.
  destruct (_ && _); [|exact Hc].
  destruct (PyStr.partition _ _) as [[chave sep] valor].
  destruct (decide (PyStr.strip chave = "PG_PASS")) as [Heq|Hne].
  - rewrite bool_decide_eq_true_2 by assumption. exact Hc.
  - rewrite bool_decide_eq_false_2 by assumption.
    rewrite lookup_insert_ne by assumption. exact Hc.
Qed.

Lemma foldl_ler_linha_sem_senha (env : list string) :
  forall config : gmap string string,
    config !! "PG_PASS" = None ->
    foldl ler_linha config env !! "PG_PASS" = None.
Proof.
  induction env as [|linha env IH]; intros config Hc; [exact Hc|].
  cbn [foldl]. apply IH, ler_linha_sem_senha, Hc.
Qed.

(** Where the reads keep the password back. Two manager configurations
    that agree on every key but [pg_pass] get the same answer from
    [GET /api/config], and the answer has no [pg_pass] key; two [.env]
    files that agree line by line except on the lines that start with
    [PG_PASS=] get the same answer from [GET /api/config-local], and that
    answer, when it is not a 401, has no [PG_PASS] key. *)
Theorem config_reads_hide_password (config1 config2 : gmap string json)
    (cfg : RadarService.Config) (auth : string) (env1 env2 : list string) :
  (forall k, k <> "pg_pass" -> config1 !! k = config2 !! k) ->
  Forall2 mesma_linha_ou_senha env1 env2 ->
  api_get_config config1 = api_get_config config2
  /\ api_get_config config1 !! "pg_pass" = None
  /\ api_config_local cfg auth (Some env1) =
       api_config_local cfg auth (Some env2)
  /\ forall resp, api_config_local cfg auth (Some env1) = Json resp ->
                  resp !! "PG_PASS" = None.
Proof.
  intros Hcfg Henv. repeat split.
  - unfold api_get_config. apply map_eq. intros k.
    destruct (decide (k = "pg_pass")) as [->|Hne].
    + rewrite !lookup_delete_eq. reflexivity.
    + rewrite !lookup_delete_ne by congruence. apply Hcfg, Hne.
  - unfold api_get_config. apply lookup_delete_eq.
  - unfold api_config_local. rewrite (foldl_ler_linha_senha env1 env2 Henv).
    reflexivity.
  - intros resp. unfold api_config_local, RadarService.requer_token.
    destruct (_ || _); [discriminate|]. intros [= <-].
    apply foldl_ler_linha_sem_senha, lookup_empty.
Qed.

End Secrets.

(** C10. [GET /api/config-local] gives the password away when the password
    is not alone on a line that starts with [PG_PASS=]. A password with a
    line break, saved through [POST /api/configurar] (which answers 200),
    is written on two lines, and the read shows the second one: the
    answers for two payloads that differ in [pg_pass] only are different.
    A line [export PG_PASS=...] is shown whole, under the name
    [export PG_PASS]. *)
Lemma config_local_discloses_password :
  let le := RadarConfigRoutes.api_config_local cfg_exemplo
              ExemplosMais.token_exemplo in
  (RadarConfigApi.api_configurar cfg_exemplo ExemplosMais.aj_exemplo
     ExemplosMais.str_de_exemplo ExemplosMais.token_exemplo
     (ManagerServer.JObj
        {[ "pg_pass" :=
             ManagerServer.JStr (ExemplosMais.senha_quebrada "resto") ]})
     None).2 = 200
  /\ TermosMais.campo (le (ExemplosMais.gravado
                             (ExemplosMais.senha_quebrada "resto"))) "NOTA"
     = Some "resto"
  /\ le (ExemplosMais.gravado (ExemplosMais.senha_quebrada "resto"))
     <> le (ExemplosMais.gravado (ExemplosMais.senha_quebrada "outro"))
  /\ TermosMais.campo (le (Some (ExemplosMais.env_export "segredo")))
       "export PG_PASS" = Some "segredo"
  /\ le (Some (ExemplosMais.env_export "segredo"))
     <> le (Some (ExemplosMais.env_export "outra")).
Proof.
  intros le. split; [vm_compute; reflexivity|].
  split; [vm_compute; reflexivity|]. split; [|split].
  - intros Heq.
    apply (f_equal (fun r => TermosMais.campo r "NOTA")) in Heq.
    vm_compute in Heq. discriminate.
  - vm_compute. reflexivity.
  - intros Heq.
    apply (f_equal (fun r => TermosMais.campo r "export PG_PASS")) in Heq.
    vm_compute in Heq. discriminate.
Qed.

(** ** Polling: the online flag *)

Section OnlineFlag.

Import ManagerServer.

Variable py_eq : json -> json -> bool.






End OnlineFlag.

(** ** Polling: the live event buffer *)

Section LiveBuffer.

Import ManagerServer.

Variable py_eq : json -> json -> bool.

Lemma existsb_false_lookup {A : Type} (f : A -> bool) (l : list A) :
  existsb f l = false -> forall i x, l !! i = Some x -> f x = false.
Proof.
  induction l as [|y l IH]; intros Hex i x Hi; [discriminate|].
  cbn [existsb] in Hex. apply orb_false_iff in Hex as [Hy Hl].
  destruct i as [|i]; cbn in Hi.
  - congruence.
  - eapply IH; eassumption.
Qed.

Lemma ja_visto_false (ev_key : json) (buf : list (gmap string json)) :
  ja_visto py_eq ev_key buf = false ->
  forall j e, (j < 50)%nat -> buf !! j = Some e ->
    py_eq (get e "uuid") ev_key = false.
Proof.
  intros Hv j e Hj He. unfold ja_visto in Hv.
  apply (existsb_false_lookup _ _ Hv j e).
  rewrite lookup_take_lt by assumption. exact He.
Qed.

Lemma adicionar_evento_lookup (ev : gmap string json)
    (buf : list (gmap string json)) (j : nat) :
  (j <= 50)%nat -> adicionar_evento ev buf !! j = (ev :: buf) !! j.
Proof.
  intros Hj. unfold adicionar_evento.
  destruct (Nat.ltb_spec 200 (length (ev :: buf))) as [Hlen|_]; [|reflexivity].
  rewrite removelast_firstn_len. apply lookup_take_lt. lia.
Qed.

Lemma janela_adicionar_evento (ev : gmap string json)
    (buf : list (gmap string json)) :
  truthy (get_or ev "uuid" (JStr "")) = true ->
  ja_visto py_eq (get_or ev "uuid" (JStr "")) buf = false ->
  janela_sem_repeticao py_eq buf ->
  janela_sem_repeticao py_eq (adicionar_evento ev buf).
Proof.
  intros Htruthy Hnew Hbuf i j ei ej Hij Hj Hi Hjj.
  rewrite adicionar_evento_lookup in Hi by lia.
  rewrite adicionar_evento_lookup in Hjj by lia.
  destruct j as [|j]; [lia|]. cbn in Hjj.
  destruct i as [|i]; cbn in Hi.
  - injection Hi as <-.
    assert (Hkey : get ev "uuid" = get_or ev "uuid" (JStr "")).
    { unfold get, get_or in *. destruct (ev !! "uuid"); [reflexivity|].
      cbn in Htruthy. discriminate. }
    rewrite Hkey. apply (ja_visto_false _ _ Hnew j ej); [lia|assumption].
  - apply (Hbuf i j ei ej); [lia|lia|assumption|assumption].
Qed.

Lemma janela_novos_eventos (evs : list json) :
  forall buf, janela_sem_repeticao py_eq buf ->
              janela_sem_repeticao py_eq (novos_eventos py_eq evs buf).
Proof.
  induction evs as [|ev evs IH]; intros buf Hbuf; [exact Hbuf|].
  destruct ev as [| | | | | |ev]; try exact Hbuf.
  cbn [novos_eventos]. apply IH.
  destruct (truthy (get_or ev "uuid" (JStr ""))) eqn:Ht; [|exact Hbuf].
  destruct (ja_visto py_eq (get_or ev "uuid" (JStr "")) buf) eqn:Hv;
    [exact Hbuf|].
  cbn [andb negb]. apply janela_adicionar_evento; assumption.
Qed.

Lemma janela_sondar (agora radar_id : string) (info : json) (r : Respostas)
    (st : Manager) :
  janela_sem_repeticao py_eq (eventos_recentes st) ->
  janela_sem_repeticao py_eq
    (eventos_recentes (estado (sondar py_eq agora radar_id info r st))).
Proof.
  intros Hst. unfold sondar.
  destruct info as [| | | | | |info]; try exact Hst.
  destruct (negb (truthy (get info "ip"))); [exact Hst|].
  destruct (resp_status r) as [status code].
  destruct (resp_eventos r) as [evts code2].
  destruct (Z.eqb code 200); [|exact Hst].
  destruct status as [| | | | | |status]; try exact Hst.
  destruct evts as [| | | | |evts|]; try exact Hst.
  destruct (Z.eqb code2 200); [|exact Hst].
  cbn [estado eventos_recentes]. apply janela_novos_eventos. exact Hst.
Qed.

Lemma janela_polling (sondagens : list Sondagem) :
  forall st, janela_sem_repeticao py_eq (eventos_recentes st) ->
             janela_sem_repeticao py_eq
               (eventos_recentes (loop_polling py_eq sondagens st)).
Proof.
  induction sondagens as [|s sondagens IH]; intros st Hst; [exact Hst|].
  cbn [loop_polling].
  pose proof (janela_sondar (so_agora s) (so_radar_id s) (so_info s)
                (so_resp s) st Hst) as Hs.
  destruct (sondar py_eq _ _ _ _ st) as [st'|e st']; cbn [estado] in Hs.
  - apply IH, Hs.
  - exact Hs.
Qed.

Lemma ja_visto_true_iff (ev_key : json) (buf : list (gmap string json)) :
  ja_visto py_eq ev_key buf = true <->
  exists j e, (j < 50)%nat /\ buf !! j = Some e
              /\ py_eq (get e "uuid") ev_key = true.
Proof.
  unfold ja_visto. rewrite existsb_exists. split.
  - intros (e & Hin & He). apply list_elem_of_In in Hin.
    apply list_elem_of_lookup_1 in Hin as [j Hj].
    apply lookup_take_Some in Hj as [Hj Hlt].
    exists j, e. auto.
  - intros (j & e & Hlt & Hj & He). exists e. split; [|exact He].
    apply list_elem_of_In. apply (list_elem_of_lookup_2 _ j).
    rewrite lookup_take_lt by exact Hlt. exact Hj.
Qed.

Lemma ja_visto_false_iff (ev_key : json) (buf : list (gmap string json)) :
  ja_visto py_eq ev_key buf = false <->
  forall j e, (j < 50)%nat -> buf !! j = Some e ->
    py_eq (get e "uuid") ev_key = false.
Proof.
  split; [apply ja_visto_false|]. intros Hall.
  destruct (ja_visto py_eq ev_key buf) eqn:Hv; [|reflexivity].
  apply ja_visto_true_iff in Hv as (j & e & Hlt & Hj & He).
  rewrite (Hall j e Hlt Hj) in He. discriminate.
Qed.

(** An addition moves every entry but the 200th one place back. *)
Lemma adicionar_evento_shift (ev : gmap string json)
    (buf : list (gmap string json)) (k : nat) (e : gmap string json) :
  (k < 199)%nat -> buf !! k = Some e ->
  adicionar_evento ev buf !! S k = Some e.
Proof.
  intros Hk He. unfold adicionar_evento.
  destruct (Nat.ltb_spec 200 (length (ev :: buf))) as [Hlen|_]; [|exact He].
  rewrite removelast_firstn_len. rewrite lookup_take_lt; [exact He|].
  cbn [length] in *. lia.
Qed.

(** What a probe that is answered does to the live buffer: the page is cut
    to five events and goes through [novos_eventos]. *)
Lemma sondar_eventos (agora radar_id : string)
    (info status : gmap string json) (evts : list json) (st : Manager) :
  truthy (get info "ip") = true ->
  eventos_recentes
    (estado (sondar py_eq agora radar_id (JObj info)
               {| resp_status := (JObj status, 200);
                  resp_eventos := (JArr evts, 200) |} st))
  = novos_eventos py_eq (take 5 evts) (eventos_recentes st).
Proof.
  intros Hip. unfold sondar. rewrite Hip. reflexivity.
Qed.

(** C3, as the code has it. At any point of a polling that started on an
    empty buffer: among the 51 newest entries no uuid compares equal to
    that of a newer one, and an event whose uuid compares equal to that of
    one of the 50 newest entries is not appended. For the next probe that
    is answered with a page of events, first event [ev]: when the uuid of
    [ev] compares equal to that of one of the 50 newest entries, [ev] is
    left out; when it is not empty and compares equal to none of them,
    [ev] is added in front and every older entry (up to the 199th) moves
    one place back, whether or not one of them carries that uuid. *)
Theorem recent_window_has_no_duplicates (sondagens : list Sondagem)
    (st0 : Manager) :
  eventos_recentes st0 = [] ->
  let st := loop_polling py_eq sondagens st0 in
  let buf := eventos_recentes st in
  (forall (ev : gmap string json) (evs : list json),
     ja_visto py_eq (get_or ev "uuid" (JStr "")) buf = true ->
     novos_eventos py_eq (JObj ev :: evs) buf = novos_eventos py_eq evs buf)
  /\ (forall (i j : nat) (ei ej : gmap string json),
        (i < j)%nat -> (j <= 50)%nat ->
        buf !! i = Some ei -> buf !! j = Some ej ->
        py_eq (get ej "uuid") (get ei "uuid") = false)
  /\ (forall (agora radar_id : string) (info status ev : gmap string json)
             (evs : list json),
        truthy (get info "ip") = true ->
        let chave := get_or ev "uuid" (JStr "") in
        let depois :=
          eventos_recentes
            (estado (sondar py_eq agora radar_id (JObj info)
                       {| resp_status := (JObj status, 200);
                          resp_eventos := (JArr (JObj ev :: evs), 200) |}
                       st)) in
        ((exists j e, (j < 50)%nat /\ buf !! j = Some e
                      /\ py_eq (get e "uuid") chave = true) ->
         depois = novos_eventos py_eq (take 4 evs) buf)
        /\ (truthy chave = true ->
            (forall j e, (j < 50)%nat -> buf !! j = Some e ->
                         py_eq (get e "uuid") chave = false) ->
            depois = novos_eventos py_eq (take 4 evs) (adicionar_evento ev buf)
            /\ adicionar_evento ev buf !! 0%nat = Some ev
            /\ forall k e, (k < 199)%nat -> buf !! k = Some e ->
                           adicionar_evento ev buf !! S k = Some e)).
Proof.
  intros Hempty st buf. split; [|split].
  - intros ev evs Hseen. cbn [novos_eventos]. rewrite Hseen.
    rewrite andb_false_r. reflexivity.
  - apply janela_polling. rewrite Hempty. intros i j ei ej _ _ Hi.
    rewrite lookup_nil in Hi. discriminate.
  - intros agora radar_id info status ev evs Hip chave depois.
    assert (Hdepois : depois =
              novos_eventos py_eq (take 4 evs)
                (if truthy chave && negb (ja_visto py_eq chave buf)
                 then adicionar_evento ev buf else buf)).
    { unfold depois. rewrite sondar_eventos by exact Hip. reflexivity. }
    split.
    + intros Hseen. apply ja_visto_true_iff in Hseen.
      rewrite Hdepois, Hseen, andb_false_r. reflexivity.
    + intros Hchave Hnew. apply ja_visto_false_iff in Hnew.
      rewrite Hdepois, Hchave, Hnew. split; [reflexivity|]. split.
      * rewrite adicionar_evento_lookup by lia. reflexivity.
      * intros k e. apply adicionar_evento_shift.
Qed.

End LiveBuffer.

(** C3 fails as stated: after the two cycles of [dois_ciclos] the live buffer
    holds the event [u] twice, at positions 0 and 51, so its uuids are not
    distinct: at its second arrival the first copy was behind the 50
    entries that the poller looks at. *)
Lemma dedup_looks_at_50_only :
  let buf := ManagerServer.eventos_recentes
               (ManagerServer.loop_polling py_eq_escalar dois_ciclos
                  manager_inicial) in
  (ManagerServer.JObj <$> buf !! 0%nat) = Some (evento "u")
  /\ (ManagerServer.JObj <$> buf !! 51%nat) = Some (evento "u")
  /\ ~ NoDup ((fun e => ManagerServer.get e "uuid") <$> buf).
Proof.
  intros buf.
  assert (H0 : ((fun e => ManagerServer.get e "uuid") <$> buf) !! 0%nat
               = Some (ManagerServer.JStr "u")) by (vm_compute; reflexivity).
  assert (H51 : ((fun e => ManagerServer.get e "uuid") <$> buf) !! 51%nat
                = Some (ManagerServer.JStr "u")) by (vm_compute; reflexivity).
  split; [vm_compute; reflexivity|]. split; [vm_compute; reflexivity|].
  intros Hnd. pose proof (NoDup_lookup _ _ _ _ Hnd H0 H51). discriminate.
Qed.

(** C4. A /24 range (254 hosts) in which no host answers before the
    [SCAN_TIMEOUT] of 1.5 s: the launch loop of [escanear_rede] has 51 probes
    in flight at the 51st start and up to 64 later on. *)
Lemma scan_launch_exceeds_50 :
  let em := ManagerServer.em_voo
              {| ManagerServer.relogio := 0; ManagerServer.threads := [] |}
              (replicate 254 15%nat) in
  em !! 50%nat = Some 51%nat /\ list_max em = 64%nat.
Proof. vm_compute. split; reflexivity. Qed.

(** ** The theorems at the worked runs *)

(** [det_u1] was pushed once; three more upserts and two more cycles later
    the central table still holds it once. *)
Lemma push_is_idempotent_witness :
  RadarService.inserir cfg_exemplo det_u1
    (RadarService.garantir_tabela_pg
       (central_apos [ciclo_u1] {| RadarService.radar_deteccoes := None |})) =
  RadarService.garantir_tabela_pg
    (central_apos [ciclo_u1] {| RadarService.radar_deteccoes := None |})
  /\ linhas_com_uuid "u1"
       (central_apos [ciclo_u1; ciclo_u1]
          (central_apos [ciclo_u1] {| RadarService.radar_deteccoes := None |}))
     = 1%nat.
Proof.
  pose proof (push_is_idempotent [ciclo_u1] [ciclo_u1; ciclo_u1] cfg_exemplo
                det_u1 3 eq_refl) as (H1 & _ & H3).
  split; [exact H1|exact H3].
Defined.

(** Without a central host the cycle changes nothing and the next detection
    is saved. *)
Lemma offline_cycle_keeps_local_witness :
  RadarService.sincronizar_com_central cfg_sem_central (fun _ => false) None
    db_pendente = (db_pendente, None)
  /\ exists db',
       RadarService.salvar_deteccao cfg_sem_central 25.0 "A->B" "u2"
         "2024-01-01T00:00:05"
         (RadarService.sincronizar_com_central cfg_sem_central
            (fun _ => false) None db_pendente).1 = Returned db'.
Proof.
  pose proof (offline_cycle_keeps_local cfg_sem_central (fun _ => false) None
                db_pendente 25.0 "A->B" "u2" "2024-01-01T00:00:05"
                (or_intror (or_introl eq_refl)) eq_refl eq_refl) as [H1 H2].
  split; [exact H1|]. eexists. exact H2.
Defined.


(** The answers for two stored states that differ in the password only. *)
Lemma config_reads_hide_password_witness :
  ManagerServer.api_get_config
    (<["pg_pass" := ManagerServer.JStr "segredo"]> config_sem_senha) =
  ManagerServer.api_get_config
    (<["pg_pass" := ManagerServer.JStr "outra"]> config_sem_senha)
  /\ RadarConfigRoutes.api_config_local cfg_exemplo "Bearer mude-este-token"
       (Some env_a) =
     RadarConfigRoutes.api_config_local cfg_exemplo "Bearer mude-este-token"
       (Some env_b).
Proof.
  assert (Hcfg : forall k, k <> "pg_pass" ->
            <["pg_pass" := ManagerServer.JStr "segredo"]> config_sem_senha !! k
            = <["pg_pass" := ManagerServer.JStr "outra"]> config_sem_senha !! k).
  { intros k Hk. rewrite !lookup_insert_ne by congruence. reflexivity. }
  assert (Henv : Forall2 mesma_linha_ou_senha env_a env_b).
  { constructor; [left; reflexivity|].
    constructor; [right; exists "segredo", "outra"; split; reflexivity|].
    constructor; [left; reflexivity|]. constructor. }
  pose proof (config_reads_hide_password _ _ cfg_exemplo
                "Bearer mude-este-token" env_a env_b Hcfg Henv)
    as (H1 & _ & H3 & _).
  split; [exact H1|exact H3].
Defined.

(** After the first cycle of [dois_ciclos] the event [u] sits at position
    50 of the live buffer; the first radar reports it again and it is added
    a second time. *)
Lemma recent_window_has_no_duplicates_witness :
  let st := ManagerServer.loop_polling py_eq_escalar (take 11 dois_ciclos)
              manager_inicial in
  ManagerServer.eventos_recentes st !! 50%nat
  = Some {[ "uuid" := ManagerServer.JStr "u" ]}
  /\ ManagerServer.eventos_recentes
       (estado (ManagerServer.sondar py_eq_escalar "2024-01-01T00:00:05" "r1"
                  (ManagerServer.JObj info_r1)
                  {| ManagerServer.resp_status := (ManagerServer.JObj ∅, 200);
                     ManagerServer.resp_eventos :=
                       (ManagerServer.JArr [evento "u"], 200) |} st))
     = ManagerServer.adicionar_evento {[ "uuid" := ManagerServer.JStr "u" ]}
         (ManagerServer.eventos_recentes st).
Proof.
  intros st. split; [vm_compute; reflexivity|].
  pose proof (recent_window_has_no_duplicates py_eq_escalar
                (take 11 dois_ciclos) manager_inicial eq_refl)
    as (_ & _ & H).
  destruct (H "2024-01-01T00:00:05" "r1" info_r1 ∅
              {[ "uuid" := ManagerServer.JStr "u" ]} [] eq_refl)
    as [_ Hadd].
  destruct Hadd as (Heq & _ & _).
  - vm_compute. reflexivity.
  - apply ja_visto_false. vm_compute. reflexivity.
  - exact Heq.
Defined.

(** * Further properties *)

Import TermosMais.

(** ** The sensor pair and the token *)

Section MaisSensor.

Import RadarService.

Variable cfg : Config.
Variable round2 : float -> float.

Lemma callback_sensor_b_slot (agora : float) (uid ts ts' : string)
    (st : Radar) :
  sensor_a_tempo (estado (callback_sensor_b cfg round2 agora uid ts ts' st))
    = None.
Proof.
  unfold callback_sensor_b.
  destruct (sensor_a_tempo st) as [t_a|] eqn:Hslot; [|exact Hslot].
  destruct (_ || _); [reflexivity|].
  destruct (PrimFloat.ltb 200 _); [reflexivity|].
  destruct (salvar_deteccao _ _ _ _ _ _); reflexivity.
Qed.

(** X1. However a B trigger ends (a measurement, a discard, or a failed
    save), it leaves the armed slot empty: a B trigger that follows it
    without an A in between returns at once and changes nothing, so one A
    timestamp is never used for two measurements. *)
Theorem b_consumes_the_slot (agora agora' : float)
    (uid ts ts' uid' ts1 ts1' : string) (st : Radar) :
  let st' := estado (callback_sensor_b cfg round2 agora uid ts ts' st) in
  sensor_a_tempo st' = None
  /\ callback_sensor_b cfg round2 agora' uid' ts1 ts1' st' = Returned st'.
Proof.
  intros st'. pose proof (callback_sensor_b_slot agora uid ts ts' st) as H.
  fold st' in H. split; [exact H|].
  unfold callback_sensor_b. rewrite H. reflexivity.
Qed.

Lemma append_cons (a : ascii) (p t : string) :
  String a p +:+ t = String a (p +:+ t).
Proof. reflexivity. Qed.

Lemma startswith_app (p s : string) :
  PyStr.startswith p s = true ->
  s = p +:+ PyStr.slice_from (String.length p) s.
Proof.
  revert s. induction p as [|a p IH]; intros s H; [reflexivity|].
  destruct s as [|b s]; [discriminate|].
  cbn in H. apply andb_true_iff in H as [Hab Hp].
  apply Ascii.eqb_eq in Hab. subst b. rewrite append_cons. cbn. f_equal.
  apply IH, Hp.
Qed.

Lemma startswith_prefix (p t : string) :
  PyStr.startswith p (p +:+ t) = true
  /\ PyStr.slice_from (String.length p) (p +:+ t) = t.
Proof.
  induction p as [|a p [IH1 IH2]]; [split; reflexivity|].
  rewrite append_cons. cbn. rewrite Ascii.eqb_refl, IH1, IH2.
  split; reflexivity.
Qed.

(** X2. [requer_token] lets a request through exactly when its
    Authorization header is the text [Bearer ], one space, and the
    configured token, character for character; anything else is a 401. *)
Theorem token_gate_is_exact {A : Type} (auth : string) (f : A) :
  (requer_token cfg auth f = Json f <-> auth = "Bearer " +:+ API_TOKEN cfg)
  /\ (requer_token cfg auth f = Abort401
      <-> auth <> "Bearer " +:+ API_TOKEN cfg).
Proof.
  assert (Hdec : requer_token cfg auth f = Json f
                 <-> auth = "Bearer " +:+ API_TOKEN cfg).
  { unfold requer_token. split.
    - destruct (PyStr.startswith "Bearer " auth) eqn:Hs; [|discriminate].
      destruct (bool_decide _) eqn:Hb; [|discriminate]. intros _.
      apply bool_decide_eq_true_1 in Hb.
      rewrite (startswith_app _ _ Hs). change (String.length "Bearer ") with 7%nat.
      rewrite Hb. reflexivity.
    - intros ->.
      destruct (startswith_prefix "Bearer " (API_TOKEN cfg)) as [H1 H2].
      rewrite H1. change (String.length "Bearer ") with 7%nat in H2.
      rewrite H2. rewrite bool_decide_eq_true_2 by reflexivity. reflexivity. }
  split; [exact Hdec|].
  split.
  - intros H Heq. apply Hdec in Heq. congruence.
  - intros Hne. unfold requer_token in *.
    destruct (_ || _) eqn:E; [reflexivity|].
    exfalso. apply Hne, Hdec. reflexivity.
Qed.

End MaisSensor.

(** ** The local table and the sync loop *)

Section MaisSync.

Import RadarService RadarServiceApi.

Variable cfg : Config.

Lemma tem_uuid_elem (u : string) (rows : list Deteccao) :
  tem_uuid u rows = true <-> u ∈ det_uuid <$> rows.
Proof.
  unfold tem_uuid. rewrite existsb_exists, list_elem_of_fmap. split.
  - intros (r & Hin & Heq). apply bool_decide_eq_true_1 in Heq.
    exists r. split; [congruence|]. apply list_elem_of_In, Hin.
  - intros (r & -> & Hin). exists r. split.
    + apply list_elem_of_In, Hin.
    + apply bool_decide_eq_true_2. reflexivity.
Qed.

Lemma marcada_uuid (us : list string) (rows : list Deteccao) :
  det_uuid <$> (marcada us <$> rows) = det_uuid <$> rows.
Proof. rewrite <- list_fmap_compose. apply list_fmap_ext. reflexivity. Qed.

Lemma integra_salvar (v : float) (dir uid ts : string) (db : Sqlite) :
  integra db -> integra (estado (salvar_deteccao cfg v dir uid ts db)).
Proof.
  intros (Hnd & Hsort & Hmax). unfold salvar_deteccao.
  destruct (PrimFloat.is_nan v); [repeat split; assumption|].
  destruct (tem_uuid uid (deteccoes db)) eqn:Hnew; [repeat split; assumption|].
  unfold integra. cbn [estado deteccoes sqlite_sequence]. repeat split.
  - rewrite fmap_app. apply NoDup_app. split; [assumption|]. split.
    + intros u Hu Hu'. cbn in Hu'. apply list_elem_of_singleton in Hu'.
      subst u. apply tem_uuid_elem in Hu. congruence.
    + cbn. apply NoDup_singleton.
  - intros i j ri rj Hij Hi Hj.
    destruct (decide (j < length (deteccoes db))%nat) as [Hlt|Hge].
    + rewrite lookup_app_l in Hi by lia. rewrite lookup_app_l in Hj by lia.
      exact (Hsort i j ri rj Hij Hi Hj).
    + rewrite lookup_app_r in Hj by lia.
      destruct (j - length (deteccoes db))%nat as [|n] eqn:Hn; [|discriminate].
      injection Hj as <-. cbn [det_id].
      rewrite lookup_app_l in Hi by lia.
      apply list_elem_of_lookup_2 in Hi.
      rewrite Forall_forall in Hmax. specialize (Hmax ri Hi). lia.
  - apply Forall_app. split.
    + eapply Forall_impl; [exact Hmax|]. cbn. intros r Hr. lia.
    + apply Forall_singleton. cbn. lia.
Qed.

Lemma integra_marcar (us : list string) (db : Sqlite) :
  integra db -> integra (marcar_sincronizado us db).
Proof.
  intros (Hnd & Hsort & Hmax). unfold integra, marcar_sincronizado.
  cbn [deteccoes sqlite_sequence]. rewrite foldl_update_sincronizado.
  repeat split.
  - rewrite marcada_uuid. exact Hnd.
  - intros i j ri rj Hij Hi Hj. rewrite list_lookup_fmap in Hi, Hj.
    destruct (deteccoes db !! i) as [ri'|] eqn:Ei; [|discriminate].
    destruct (deteccoes db !! j) as [rj'|] eqn:Ej; [|discriminate].
    injection Hi as <-. injection Hj as <-. cbn.
    exact (Hsort i j ri' rj' Hij Ei Ej).
  - apply Forall_fmap. eapply Forall_impl; [exact Hmax|]. cbn. intros r Hr.
    exact Hr.
Qed.

(** The local side of a cycle is [marcar_sincronizado] of what was sent. *)
Lemma sincronizar_local (rejeita : Deteccao -> bool)
    (central : option Postgres) (db : Sqlite) :
  exists us, (sincronizar_com_central cfg rejeita central db).1
             = marcar_sincronizado us db.
Proof.
  unfold sincronizar_com_central.
  destruct (get_deteccoes_nao_sincronizadas db) as [|p ps].
  { exists []. symmetry. apply marcar_sincronizado_nil. }
  destruct (get_pg_connection cfg central) as [pg|].
  2:{ exists []. symmetry. apply marcar_sincronizado_nil. }
  cbn [fst].
  match goal with |- context [enviados ?e] => exists (enviados e) end.
  destruct (enviados _); [symmetry; apply marcar_sincronizado_nil|reflexivity].
Qed.

(** X3. The local table keeps its shape through every operation of the
    service: if its uuids are distinct, its ids grow along the table and
    none exceeds the AUTOINCREMENT counter, the same holds after
    [salvar_deteccao] (whether it stores the row or raises), after
    [marcar_sincronizado] and after a whole sync cycle. *)
Theorem local_table_stays_well_formed (v : float) (dir uid ts : string)
    (us : list string) (rejeita : Deteccao -> bool)
    (central : option Postgres) (db : Sqlite) :
  integra db ->
  integra (estado (salvar_deteccao cfg v dir uid ts db))
  /\ integra (marcar_sincronizado us db)
  /\ integra (sincronizar_com_central cfg rejeita central db).1.
Proof.
  intros Hdb. split; [apply integra_salvar, Hdb|].
  split; [apply integra_marcar, Hdb|].
  destruct (sincronizar_local rejeita central db) as [us' ->].
  apply integra_marcar, Hdb.
Qed.


Lemma filter_none {A : Type} (P : A -> Prop) `{forall x, Decision (P x)}
    (l : list A) :
  (forall x, x ∈ l -> ~ P x) -> filter P l = [].
Proof.
  induction l as [|x l IH]; intros Hl; [reflexivity|].
  rewrite filter_cons. destruct (decide (P x)) as [Hx|_].
  - exfalso. apply (Hl x); [apply list_elem_of_here|exact Hx].
  - apply IH. intros y Hy. apply Hl, list_elem_of_further, Hy.
Qed.

Lemma filter_all {A : Type} (P : A -> Prop) `{forall x, Decision (P x)}
    (l : list A) :
  (forall x, x ∈ l -> P x) -> filter P l = l.
Proof.
  induction l as [|x l IH]; intros Hl; [reflexivity|].
  rewrite filter_cons. destruct (decide (P x)) as [_|Hx].
  - f_equal. apply IH. intros y Hy. apply Hl, list_elem_of_further, Hy.
  - exfalso. apply Hx, Hl, list_elem_of_here.
Qed.

(** In a list without repeated keys, dropping the entries whose key is among
    those of the first [n] leaves the rest of the list. *)
Lemma filter_not_in_take {A : Type} (f : A -> string) (n : nat) (l : list A) :
  NoDup (f <$> l) ->
  filter (fun r => f r ∉ f <$> take n l) l = drop n l.
Proof.
  intros Hnd. rewrite <- (take_drop n l) in Hnd.
  rewrite fmap_app in Hnd. apply NoDup_app in Hnd as (_ & Hdisj & _).
  set (P := fun r => f r ∉ f <$> take n l).
  transitivity (filter P (take n l ++ drop n l));
    [rewrite take_drop; reflexivity|].
  rewrite filter_app. subst P.
  rewrite filter_none, filter_all; [reflexivity| |].
  - intros x Hx Hin. apply (Hdisj (f x)); [exact Hin|].
    apply list_elem_of_fmap_2, Hx.
  - intros x Hx Hnin. apply Hnin, list_elem_of_fmap_2, Hx.
Qed.

Lemma NoDup_fmap_filter {A : Type} (f : A -> string) (P : A -> Prop)
    `{forall x, Decision (P x)} (l : list A) :
  NoDup (f <$> l) -> NoDup (f <$> filter P l).
Proof.
  induction l as [|x l IH]; intros Hnd; [exact Hnd|].
  rewrite fmap_cons in Hnd. apply NoDup_cons in Hnd as [Hx Hnd].
  rewrite filter_cons. destruct (decide (P x)); [|apply IH, Hnd].
  rewrite fmap_cons. apply NoDup_cons. split; [|apply IH, Hnd].
  intros Hin. apply Hx. apply list_elem_of_fmap in Hin as (y & Hy & Hin).
  apply (list_elem_of_filter P) in Hin as [_ Hin].
  rewrite Hy. apply list_elem_of_fmap_2, Hin.
Qed.

(** The rows still pending after [marcar_sincronizado]. *)
Lemma pendentes_marcar (us : list string) (db : Sqlite) :
  pendentes (marcar_sincronizado us db)
  = filter (fun r => det_uuid r ∉ us) (pendentes db).
Proof.
  unfold pendentes, marcar_sincronizado. cbn [deteccoes].
  rewrite foldl_update_sincronizado.
  induction (deteccoes db) as [|r rows IH]; [reflexivity|].
  rewrite fmap_cons, !filter_cons, IH.
  destruct (decide (det_uuid r ∈ us)) as [Hin|Hnin].
  - assert (Hm : det_sincronizado (marcada us r) = 1).
    { unfold marcada. rewrite (bool_decide_eq_true_2 _ Hin). reflexivity. }
    destruct (decide (det_sincronizado (marcada us r) = 0)) as [?|_]; [lia|].
    destruct (decide (det_sincronizado r = 0)); [|reflexivity].
    rewrite filter_cons. destruct (decide (det_uuid r ∉ us)); [contradiction|].
    reflexivity.
  - assert (Hm : marcada us r = r).
    { unfold marcada. rewrite (bool_decide_eq_false_2 _ Hnin).
      apply com_sincronizado_id. }
    rewrite Hm.
    destruct (decide (det_sincronizado r = 0)); [|reflexivity].
    rewrite filter_cons. destruct (decide (det_uuid r ∉ us)); [|contradiction].
    reflexivity.
Qed.

(** With nothing refused, the loop over the batch upserts every row and
    records every uuid. *)
Lemma enviar_sem_recusa (lote : list Deteccao) :
  forall (tbl : list PgDeteccao) (env : list string),
    foldl (enviar cfg (fun _ => false))
      {| tabela := tbl; abortada := false; enviados := env |} lote
    = {| tabela := foldl (fun t d => inserir cfg d t) tbl lote;
         abortada := false;
         enviados := env ++ (det_uuid <$> lote) |}.
Proof.
  induction lote as [|d lote IH]; intros tbl env.
  - cbn. rewrite app_nil_r. reflexivity.
  - cbn [foldl]. unfold enviar at 2. cbn [abortada tabela enviados].
    rewrite IH. rewrite fmap_cons, <- app_assoc. reflexivity.
Qed.

Lemma inserir_adds (det : Deteccao) (tbl : list PgDeteccao) :
  det_uuid det ∈ pg_uuid <$> inserir cfg det tbl.
Proof.
  unfold inserir. destruct (pg_tem_uuid (det_uuid det) tbl) eqn:E.
  - apply pg_tem_uuid_elem, E.
  - rewrite fmap_app. apply elem_of_app. right. cbn. apply list_elem_of_here.
Qed.

Lemma foldl_inserir_keeps (lote : list Deteccao) :
  forall (tbl : list PgDeteccao) (u : string),
    u ∈ pg_uuid <$> tbl ->
    u ∈ pg_uuid <$> foldl (fun t d => inserir cfg d t) tbl lote.
Proof.
  induction lote as [|d lote IH]; intros tbl u Hu; [exact Hu|].
  cbn [foldl]. apply IH, inserir_keeps, Hu.
Qed.

Lemma foldl_inserir_adds (lote : list Deteccao) :
  forall (tbl : list PgDeteccao) (d : Deteccao),
    d ∈ lote ->
    det_uuid d ∈ pg_uuid <$> foldl (fun t d => inserir cfg d t) tbl lote.
Proof.
  induction lote as [|x lote IH]; intros tbl d Hd.
  - apply not_elem_of_nil in Hd. contradiction.
  - cbn [foldl]. apply elem_of_cons in Hd as [->|Hd].
    + apply foldl_inserir_keeps, inserir_adds.
    + apply IH, Hd.
Qed.

(** A cycle that reaches the store and has nothing refused, in full. *)
Lemma ciclo_sem_recusa (pg : Postgres) (db : Sqlite) :
  PG_AVAILABLE cfg = true -> PG_HOST cfg <> "" ->
  sincronizar_com_central cfg (fun _ => false) (Some pg) db
  = match take 100 (pendentes db) with
    | [] => (db, Some pg)
    | lote =>
        (marcar_sincronizado (det_uuid <$> lote) db,
         Some {| radar_deteccoes :=
                   Some (foldl (fun t d => inserir cfg d t)
                           (garantir_tabela_pg pg) lote) |})
    end.
Proof.
  intros Hav Hhost. unfold sincronizar_com_central, get_pg_connection.
  rewrite Hav, (bool_decide_eq_false_2 _ Hhost). cbn [negb orb].
  unfold get_deteccoes_nao_sincronizadas. fold (pendentes db).
  destruct (take 100 (pendentes db)) as [|d lote] eqn:E; [reflexivity|].
  rewrite enviar_sem_recusa. cbn [abortada tabela enviados app].
  reflexivity.
Qed.

Lemma take_nil_inv {A : Type} (n : nat) (l : list A) :
  take (S n) l = [] -> l = [].
Proof. destruct l; [reflexivity|discriminate]. Qed.

Lemma ciclo_sem_recusa_pendentes (pg : Postgres) (db : Sqlite) :
  PG_AVAILABLE cfg = true -> PG_HOST cfg <> "" ->
  NoDup (det_uuid <$> deteccoes db) ->
  pendentes (sincronizar_com_central cfg (fun _ => false) (Some pg) db).1
  = drop 100 (pendentes db).
Proof.
  intros Hav Hhost Hnd. rewrite ciclo_sem_recusa by assumption.
  destruct (take 100 (pendentes db)) as [|d lote] eqn:E.
  - cbn [fst]. apply take_nil_inv in E. rewrite E. reflexivity.
  - cbn [fst]. rewrite pendentes_marcar, <- E.
    apply filter_not_in_take. unfold pendentes. apply NoDup_fmap_filter, Hnd.
Qed.

Lemma ciclo_sem_recusa_central (pg : Postgres) (db : Sqlite) :
  PG_AVAILABLE cfg = true -> PG_HOST cfg <> "" ->
  let r := sincronizar_com_central cfg (fun _ => false) (Some pg) db in
  (forall d, d ∈ take 100 (pendentes db) ->
     det_uuid d ∈ pg_uuid <$> garantir_tabela_pg (default pg r.2))
  /\ (forall u, u ∈ pg_uuid <$> garantir_tabela_pg pg ->
        u ∈ pg_uuid <$> garantir_tabela_pg (default pg r.2)).
Proof.
  intros Hav Hhost r. unfold r. rewrite ciclo_sem_recusa by assumption.
  destruct (take 100 (pendentes db)) as [|d lote] eqn:E.
  - cbn. split; [|intros u Hu; exact Hu].
    intros d Hd. apply not_elem_of_nil in Hd. contradiction.
  - cbn [snd default garantir_tabela_pg radar_deteccoes]. split.
    + intros x Hx. apply foldl_inserir_adds, Hx.
    + intros u Hu. apply foldl_inserir_keeps, Hu.
Qed.

(** X4. A sync cycle that reaches the central store and has no statement
    refused pushes the first 100 pending rows (all of them when fewer): with
    distinct uuids in the local table, the rows pending afterwards are the
    pending rows from the 101st on, the uuid of every row of the batch is
    in the central table, and no uuid the central table had is lost. *)
Theorem good_cycle_pushes_a_batch (pg : Postgres) (db : Sqlite) :
  PG_AVAILABLE cfg = true -> PG_HOST cfg <> "" ->
  NoDup (det_uuid <$> deteccoes db) ->
  let r := sincronizar_com_central cfg (fun _ => false) (Some pg) db in
  pendentes r.1 = drop 100 (pendentes db)
  /\ (forall d, d ∈ take 100 (pendentes db) ->
        det_uuid d ∈ pg_uuid <$> garantir_tabela_pg (default pg r.2))
  /\ (forall u, u ∈ pg_uuid <$> garantir_tabela_pg pg ->
        u ∈ pg_uuid <$> garantir_tabela_pg (default pg r.2)).
Proof.
  intros Hav Hhost Hnd r. split.
  - apply ciclo_sem_recusa_pendentes; assumption.
  - apply ciclo_sem_recusa_central; assumption.
Qed.

Lemma sincronizar_uuids (rejeita : Deteccao -> bool)
    (central : option Postgres) (db : Sqlite) :
  det_uuid <$> deteccoes (sincronizar_com_central cfg rejeita central db).1
  = det_uuid <$> deteccoes db.
Proof.
  destruct (sincronizar_local rejeita central db) as [us ->].
  unfold marcar_sincronizado. cbn [deteccoes].
  rewrite foldl_update_sincronizado. apply marcada_uuid.
Qed.

(** X5. With the central store reachable and nothing refused, and no new
    detection in between, [k] passes of the sync loop take the backlog down
    by 100 rows each, oldest first: the rows pending afterwards are the
    pending rows from position [100 * k] on (none once [100 * k] covers the
    backlog), and the uuids of all the rows before that are in the central
    table. *)
Theorem sync_loop_drains_backlog (k : nat) (pg : Postgres) (db : Sqlite) :
  PG_AVAILABLE cfg = true -> PG_HOST cfg <> "" ->
  NoDup (det_uuid <$> deteccoes db) ->
  let s := loop_sincronizacao cfg (replicate k passo_bom) (db, pg) in
  pendentes s.1 = drop (100 * k) (pendentes db)
  /\ forall d, d ∈ take (100 * k) (pendentes db) ->
       det_uuid d ∈ pg_uuid <$> garantir_tabela_pg s.2.
Proof.
  intros Hav Hhost. revert pg db. unfold loop_sincronizacao.
  induction k as [|k IH]; intros pg db Hnd.
  - cbn. split; [reflexivity|].
    intros d Hd. apply not_elem_of_nil in Hd. contradiction.
  - cbn [replicate foldl]. unfold passo_sincronizacao at 2.
    cbn [passo_bom te_rejeita te_conecta fst snd].
    set (r := sincronizar_com_central cfg (fun _ => false) (Some pg) db).
    pose proof (ciclo_sem_recusa_pendentes pg db Hav Hhost Hnd) as Hp.
    pose proof (ciclo_sem_recusa_central pg db Hav Hhost) as [Hin Hkeep].
    fold r in Hp, Hin, Hkeep.
    assert (Hnd' : NoDup (det_uuid <$> deteccoes r.1)).
    { unfold r. rewrite sincronizar_uuids. exact Hnd. }
    destruct (IH (default pg r.2) r.1 Hnd') as [IH1 IH2].
    split.
    + rewrite IH1, Hp, drop_drop. f_equal. lia.
    + intros d Hd.
      replace (100 * S k)%nat with (100 + 100 * k)%nat in Hd by lia.
      rewrite <- take_take_drop in Hd. apply elem_of_app in Hd as [Hd|Hd].
      * assert (Hall : forall (ts : list Tentativa) (s : Sqlite * Postgres) u,
                  Forall (fun t => t = passo_bom) ts ->
                  u ∈ pg_uuid <$> garantir_tabela_pg s.2 ->
                  u ∈ pg_uuid <$> garantir_tabela_pg
                        (foldl (passo_sincronizacao cfg) s ts).2).
        { clear -Hav Hhost. intros ts. induction ts as [|t ts IHts]; intros s u Hts Hu;
            [exact Hu|].
          apply Forall_cons in Hts as [-> Hts]. cbn [foldl].
          apply IHts; [exact Hts|]. unfold passo_sincronizacao.
          cbn [passo_bom te_rejeita te_conecta snd].
          apply (ciclo_sem_recusa_central s.2 s.1 Hav Hhost), Hu. }
        apply Hall; [apply Forall_replicate; reflexivity|].
        apply Hin, Hd.
      * apply IH2. rewrite Hp in *. exact Hd.
Qed.

End MaisSync.

(** ** Status and history of the edge node *)

Section MaisApi.

Import RadarService RadarServiceApi.

Variable cfg : Config.

Lemma ultima_linha_snoc (rows : list Deteccao) (r : Deteccao) :
  ultima_linha (rows ++ [r]) =
    match ultima_linha rows with
    | Some a => if Z.ltb (det_id a) (det_id r) then Some r else Some a
    | None => Some r
    end.
Proof. unfold ultima_linha. rewrite foldl_app. reflexivity. Qed.

Lemma ultima_linha_elem (rows : list Deteccao) (a : Deteccao) :
  ultima_linha rows = Some a -> a ∈ rows.
Proof.
  revert a. induction rows as [|r rows IH] using rev_ind; intros a Ha.
  - discriminate.
  - rewrite ultima_linha_snoc in Ha. apply elem_of_app.
    destruct (ultima_linha rows) as [b|].
    + destruct (Z.ltb (det_id b) (det_id r)); injection Ha as <-.
      * right. apply list_elem_of_here.
      * left. apply IH. reflexivity.
    + injection Ha as <-. right. apply list_elem_of_here.
Qed.

(** X6. [GET /api/status] never reports more pending rows than rows; and
    once [salvar_deteccao] has stored a detection in a well-formed table,
    the next status shows one row more, one pending row more and that
    detection as the last one, whatever the central store is doing. *)
Theorem status_follows_saves (aj : Ajustes) (auth agora agora' : string)
    (central central' : option Postgres) (v : float) (dir uid ts : string)
    (db db' : Sqlite) (s s' : Status) :
  integra db ->
  salvar_deteccao cfg v dir uid ts db = Returned db' ->
  api_status cfg aj auth agora central db = Json s ->
  api_status cfg aj auth agora' central' db' = Json s' ->
  (s_pendentes_sync s <= s_total_deteccoes s)%nat
  /\ s_total_deteccoes s' = S (s_total_deteccoes s)
  /\ s_pendentes_sync s' = S (s_pendentes_sync s)
  /\ s_ultima_deteccao s' = Some (v, ts).
Proof.
  intros (_ & _ & Hmax) Hsave Hs Hs'.
  unfold api_status, requer_token in Hs, Hs'.
  destruct (_ || _); [discriminate|].
  injection Hs as <-. injection Hs' as <-.
  cbn [s_pendentes_sync s_total_deteccoes s_ultima_deteccao].
  unfold salvar_deteccao in Hsave.
  destruct (PrimFloat.is_nan v); [discriminate|].
  destruct (tem_uuid uid (deteccoes db)); [discriminate|].
  injection Hsave as <-. cbn [deteccoes].
  split; [apply length_filter|].
  split; [rewrite length_app; cbn; lia|].
  split.
  - rewrite filter_app, length_app, filter_cons.
    destruct (decide _) as [_|Hn]; [cbn; lia|].
    exfalso. apply Hn. reflexivity.
  - rewrite ultima_linha_snoc.
    destruct (ultima_linha (deteccoes db)) as [a|] eqn:Ha; [|reflexivity].
    apply ultima_linha_elem in Ha. rewrite Forall_forall in Hmax.
    specialize (Hmax a Ha). cbn [det_id].
    destruct (Z.ltb_spec (det_id a) (sqlite_sequence db + 1)); [reflexivity|lia].
Qed.

Lemma autenticado_corpo {A : Type} (auth : string) (r : http A) (p : A) :
  autenticado cfg auth r = Corpo p ->
  r = Corpo p /\ forall (B : Type) (r' : http B), autenticado cfg auth r' = r'.
Proof.
  unfold autenticado, requer_token. destruct (_ || _); [discriminate|].
  intros ->. split; reflexivity.
Qed.

Lemma int64_range (z : Z) : int64 z = true <-> - 2 ^ 63 <= z < 2 ^ 63.
Proof. unfold int64. rewrite andb_true_iff, Z.leb_le, Z.ltb_lt. reflexivity. Qed.

(** X7. [GET /api/deteccoes] pages the history without gaps or overlaps: a
    page never has more rows than its limit, and a page of [a] rows at
    offset [o] followed by the page of [b] rows at offset [o + a] is the
    page of [a + b] rows at offset [o]. *)
Theorem history_pages_tile (auth : string) (a b o : Z) (db : Sqlite)
    (p q : list Deteccao) :
  0 <= a -> 0 <= b -> 0 <= o -> a + b < 2 ^ 63 -> o + a < 2 ^ 63 ->
  api_deteccoes cfg auth a o db = Corpo p ->
  api_deteccoes cfg auth b (o + a) db = Corpo q ->
  (length p <= Z.to_nat a)%nat
  /\ api_deteccoes cfg auth (a + b) o db = Corpo (p ++ q).
Proof.
  intros Ha Hb Ho Hab Hoa Hp Hq. unfold api_deteccoes in *.
  apply autenticado_corpo in Hp as [Hp Hauth].
  apply autenticado_corpo in Hq as [Hq _]. rewrite Hauth.
  assert (H63 : 0 < 2 ^ 63) by reflexivity.
  assert (Hi : forall z, 0 <= z -> z < 2 ^ 63 -> int64 z = true).
  { intros z Hz1 Hz2. apply int64_range. lia. }
  rewrite !Hi in Hp, Hq |- * by lia. cbn [andb] in *.
  destruct (Z.ltb_spec a 0); [lia|]. destruct (Z.ltb_spec b 0); [lia|].
  destruct (Z.ltb_spec (a + b) 0); [lia|].
  injection Hp as <-. injection Hq as <-. split.
  - rewrite length_take. lia.
  - f_equal. rewrite !Z2Nat.inj_add by lia.
    rewrite <- drop_drop. symmetry. apply take_take_drop.
Qed.

(** X8. The history comes newest first: once [salvar_deteccao] has stored
    a detection, the first page (limit at least 1) starts with that
    detection, followed by what the first page with one row less showed
    before. *)
Theorem history_starts_with_latest (auth : string) (l : Z) (v : float)
    (dir uid ts : string) (db db' : Sqlite) (p : list Deteccao) :
  1 <= l -> l < 2 ^ 63 ->
  salvar_deteccao cfg v dir uid ts db = Returned db' ->
  api_deteccoes cfg auth (l - 1) 0 db = Corpo p ->
  exists r,
    api_deteccoes cfg auth l 0 db' = Corpo (r :: p)
    /\ det_uuid r = uid /\ det_velocidade r = v /\ det_timestamp r = ts
    /\ det_sincronizado r = 0.
Proof.
  intros Hl1 Hl2 Hsave Hp. unfold api_deteccoes in *.
  apply autenticado_corpo in Hp as [Hp Hauth]. rewrite Hauth.
  assert (H63 : 0 < 2 ^ 63) by reflexivity.
  assert (Hi : forall z, 0 <= z -> z < 2 ^ 63 -> int64 z = true).
  { intros z Hz1 Hz2. apply int64_range. lia. }
  rewrite !Hi in Hp |- * by lia. cbn [andb] in *.
  destruct (Z.ltb_spec (l - 1) 0); [lia|]. destruct (Z.ltb_spec l 0); [lia|].
  injection Hp as <-.
  unfold salvar_deteccao in Hsave.
  destruct (PrimFloat.is_nan v); [discriminate|].
  destruct (tem_uuid uid (deteccoes db)); [discriminate|].
  injection Hsave as <-. cbn [deteccoes].
  eexists. split.
  - rewrite reverse_app. replace (Z.to_nat l) with (S (Z.to_nat (l - 1))) by lia.
    reflexivity.
  - repeat split.
Qed.

End MaisApi.

(** ** The live buffer and the event feed of the manager *)

Section MaisEventos.

Import ManagerServer ManagerApi.

Variable py_eq : json -> json -> bool.

Lemma adicionar_evento_take (ev : gmap string json)
    (buf : list (gmap string json)) :
  (length buf <= 200)%nat -> adicionar_evento ev buf = take 200 (ev :: buf).
Proof.
  intros Hlen. unfold adicionar_evento.
  destruct (Nat.ltb_spec 200 (length (ev :: buf))) as [Hgt|Hle].
  - rewrite removelast_firstn_len. f_equal. cbn [length] in *. lia.
  - rewrite take_ge by exact Hle. reflexivity.
Qed.

Lemma adicionar_evento_length (ev : gmap string json)
    (buf : list (gmap string json)) :
  (length buf <= 200)%nat ->
  length (adicionar_evento ev buf) = Nat.min 200 (S (length buf)).
Proof.
  intros Hlen. rewrite adicionar_evento_take by exact Hlen.
  rewrite length_take. reflexivity.
Qed.

Lemma novos_eventos_capacity (evs : list json) :
  forall buf, (length buf <= 200)%nat ->
              (length (novos_eventos py_eq evs buf) <= 200)%nat.
Proof.
  induction evs as [|ev evs IH]; intros buf Hbuf; [exact Hbuf|].
  destruct ev as [| | | | | |ev]; try exact Hbuf.
  cbn [novos_eventos]. apply IH.
  destruct (_ && _); [|exact Hbuf].
  rewrite adicionar_evento_length by exact Hbuf. lia.
Qed.

Lemma sondar_capacity (agora radar_id : string) (info : json) (r : Respostas)
    (st : Manager) :
  (length (eventos_recentes st) <= 200)%nat ->
  (length (eventos_recentes
             (estado (sondar py_eq agora radar_id info r st))) <= 200)%nat.
Proof.
  intros Hst. unfold sondar.
  destruct info as [| | | | | |info]; try exact Hst.
  destruct (negb (truthy (get info "ip"))); [exact Hst|].
  destruct (resp_status r) as [status code].
  destruct (resp_eventos r) as [evts code2].
  destruct (Z.eqb code 200); [|exact Hst].
  destruct status as [| | | | | |status]; try exact Hst.
  destruct evts as [| | | | |evts|]; try exact Hst.
  destruct (Z.eqb code2 200); [|exact Hst].
  cbn [estado eventos_recentes]. apply novos_eventos_capacity. exact Hst.
Qed.

(** X9. The live buffer of the manager holds at most 200 events through any
    polling, and an addition keeps the 200 newest: it puts the event in
    front and, at 200 entries, drops the oldest one at the end. *)
Theorem live_buffer_keeps_200_newest (sondagens : list Sondagem)
    (st : Manager) (ev : gmap string json) :
  (length (eventos_recentes st) <= 200)%nat ->
  let buf := eventos_recentes (loop_polling py_eq sondagens st) in
  (length buf <= 200)%nat
  /\ adicionar_evento ev buf = take 200 (ev :: buf).
Proof.
  intros Hst buf.
  assert (Hbuf : (length buf <= 200)%nat).
  { unfold buf. clear buf. revert st Hst.
    induction sondagens as [|s sondagens IH]; intros st Hst; [exact Hst|].
    cbn [loop_polling].
    pose proof (sondar_capacity (so_agora s) (so_radar_id s) (so_info s)
                  (so_resp s) st Hst) as Hs.
    destruct (sondar py_eq _ _ _ _ st) as [st'|e st']; cbn [estado] in Hs.
    - apply IH, Hs.
    - exact Hs. }
  split; [exact Hbuf|]. apply adicionar_evento_take, Hbuf.
Qed.

(** X10. [GET /api/eventos] of the manager answers with at most 50 events,
    the newest ones, and after any polling that started on an empty buffer
    no event of the answer has a uuid that compares equal to that of a
    newer event of the answer: a detection is never listed twice. *)
Theorem event_listing_has_no_repeats (sondagens : list Sondagem)
    (st0 : Manager) :
  eventos_recentes st0 = [] ->
  let resposta := api_eventos (loop_polling py_eq sondagens st0) in
  (length resposta <= 50)%nat
  /\ forall (i j : nat) (ei ej : gmap string json),
       (i < j)%nat -> resposta !! i = Some ei -> resposta !! j = Some ej ->
       py_eq (get ej "uuid") (get ei "uuid") = false.
Proof.
  intros Hempty resposta. unfold resposta, api_eventos. split.
  - rewrite length_take. lia.
  - intros i j ei ej Hij Hi Hj.
    assert (Hj50 : (j < 50)%nat).
    { apply lookup_lt_Some in Hj. rewrite length_take in Hj. lia. }
    rewrite lookup_take_lt in Hi by lia. rewrite lookup_take_lt in Hj by lia.
    assert (Hjan : janela_sem_repeticao py_eq
                     (eventos_recentes (loop_polling py_eq sondagens st0))).
    { apply janela_polling. rewrite Hempty. intros a b ea eb _ _ Ha.
      rewrite lookup_nil in Ha. discriminate. }
    apply (Hjan i j ei ej); [exact Hij|lia|exact Hi|exact Hj].
Qed.

End MaisEventos.

Section MaisStream.

Import ManagerServer ManagerApi.

Lemma foldl_adicionar_evento (evs : list (gmap string json)) :
  forall buf : list (gmap string json),
    (length buf + length evs <= 200)%nat ->
    foldl (fun b e => adicionar_evento e b) buf evs = reverse evs ++ buf.
Proof.
  induction evs as [|e evs IH]; intros buf Hlen; [reflexivity|].
  cbn [foldl length] in *. rewrite adicionar_evento_take by lia.
  rewrite take_ge by (cbn [length]; lia). rewrite IH by (cbn [length]; lia).
  rewrite reverse_cons, <- app_assoc. reflexivity.
Qed.

Lemma foldl_adicionar_evento_full (evs : list (gmap string json)) :
  forall buf : list (gmap string json),
    length buf = 200%nat ->
    length (foldl (fun b e => adicionar_evento e b) buf evs) = 200%nat.
Proof.
  induction evs as [|e evs IH]; intros buf Hlen; [exact Hlen|].
  cbn [foldl]. apply IH. rewrite adicionar_evento_length by lia. lia.
Qed.

(** X11. A subscriber of the event feed first gets every event of the
    buffer, oldest first, then a heartbeat; and on a later turn, when
    events were added since its last turn and the buffer stayed within its
    200 entries, it gets exactly those events, in the order in which they
    were added, then a heartbeat. *)
Theorem feed_delivers_in_order (agora : string)
    (buf evs : list (gmap string json)) :
  (length buf + length evs <= 200)%nat ->
  api_stream [(agora, buf)] = (Dados <$> reverse buf) ++ [Heartbeat agora]
  /\ gerar_passo agora (length buf)
       (foldl (fun b e => adicionar_evento e b) buf evs)
     = ((Dados <$> evs) ++ [Heartbeat agora],
        (length buf + length evs)%nat).
Proof.
  intros Hlen. split.
  - unfold api_stream. cbn [gerar fst snd]. rewrite app_nil_r.
    unfold gerar_passo. destruct buf as [|e buf]; [reflexivity|].
    cbn [length Nat.ltb Nat.leb fst]. rewrite Nat.sub_0_r.
    rewrite take_ge by (cbn [length]; lia). reflexivity.
  - rewrite foldl_adicionar_evento by exact Hlen. unfold gerar_passo.
    rewrite length_app, length_reverse.
    destruct evs as [|e evs].
    + cbn [length reverse app fmap list_fmap].
      destruct (Nat.ltb_spec (length buf) (0 + length buf)); [lia|].
      f_equal. lia.
    + destruct (Nat.ltb_spec (length buf) (length (e :: evs) + length buf));
        [|cbn [length] in *; lia].
      replace (length (e :: evs) + length buf - length buf)%nat
        with (length (reverse (e :: evs))) by (rewrite length_reverse; lia).
      rewrite take_app_length, reverse_involutive. f_equal. lia.
Qed.

(** X12. Once the buffer is full and a subscriber has seen its 200
    entries, the feed gives that subscriber heartbeats only, whatever
    events are added from then on: the turn compares lengths, and the
    length stays at 200. *)
Theorem feed_is_silent_when_full (agora : string)
    (buf evs : list (gmap string json)) :
  length buf = 200%nat ->
  gerar_passo agora 200 (foldl (fun b e => adicionar_evento e b) buf evs)
  = ([Heartbeat agora], 200%nat).
Proof.
  intros Hfull. unfold gerar_passo.
  rewrite foldl_adicionar_evento_full by exact Hfull. reflexivity.
Qed.

End MaisStream.

(** ** Configuration, discovery and the registry of the manager *)

Section MaisRegistro.

Import ManagerServer ManagerApi.

Lemma foldl_campos (d : gmap string json) (campos : list string) :
  forall (config : gmap string json) (k : string),
    foldl (fun config campo =>
             match d !! campo with
             | Some v => <[campo := v]> config
             | None => config
             end) config campos !! k
    = if bool_decide (k ∈ campos)
      then match d !! k with Some v => Some v | None => config !! k end
      else config !! k.
Proof.
  induction campos as [|c campos IH]; intros config k.
  - rewrite bool_decide_eq_false_2 by apply not_elem_of_nil. reflexivity.
  - cbn [foldl]. rewrite IH.
    destruct (decide (k = c)) as [->|Hne].
    + rewrite (bool_decide_eq_true_2 (c ∈ c :: campos))
        by apply list_elem_of_here.
      destruct (d !! c) as [v|] eqn:Hd.
      * destruct (bool_decide _); [reflexivity|apply lookup_insert_eq].
      * destruct (bool_decide _); reflexivity.
    + assert (Hc : match d !! c with
                   | Some v => <[c := v]> config
                   | None => config
                   end !! k = config !! k).
      { destruct (d !! c); [apply lookup_insert_ne; congruence|reflexivity]. }
      rewrite Hc.
      destruct (decide (k ∈ campos)) as [Hin|Hnin].
      * rewrite !bool_decide_eq_true_2; [reflexivity| |exact Hin].
        apply list_elem_of_further, Hin.
      * rewrite !bool_decide_eq_false_2; [reflexivity| |exact Hnin].
        rewrite elem_of_cons. intros [?|?]; congruence.
Qed.

(** X13. [POST /api/config] changes the eleven allowed fields only: a key
    outside the list (the registry [radares_conhecidos] among them) keeps
    its value whatever the payload is, and with an object payload an
    allowed field takes the payload's value when the payload has it and
    keeps its own otherwise. *)
Theorem config_post_sets_allowed_fields_only (dados : json)
    (config : gmap string json) (k : string) :
  (k ∉ campos_permitidos -> api_set_config dados config !! k = config !! k)
  /\ (forall d, dados = JObj d -> k ∈ campos_permitidos ->
        api_set_config dados config !! k
        = match d !! k with Some v => Some v | None => config !! k end)
  /\ api_set_config dados config !! "radares_conhecidos"
     = config !! "radares_conhecidos".
Proof.
  assert (Hout : forall k', k' ∉ campos_permitidos ->
            api_set_config dados config !! k' = config !! k').
  { intros k' Hk. unfold api_set_config.
    destruct dados as [| | | | | |d]; try reflexivity.
    rewrite foldl_campos, bool_decide_eq_false_2 by exact Hk. reflexivity. }
  split; [apply Hout|]. split.
  - intros d -> Hk. unfold api_set_config.
    rewrite foldl_campos, bool_decide_eq_true_2 by exact Hk. reflexivity.
  - apply Hout. unfold campos_permitidos. intros Hin.
    repeat (apply elem_of_cons in Hin as [Hin|Hin]; [discriminate|]).
    apply not_elem_of_nil in Hin. exact Hin.
Qed.

(** X14. [descobrir_radar] takes a host for a radar exactly when the ping
    answers 200 with a JSON object whose [servico] is the string [radar];
    the descriptor is then that object with the probed address under [ip],
    unless the object has an [ip] of its own, which is kept. *)
Theorem ping_qualifies_exactly (ip : string) (r : option (Z * option json))
    (d : gmap string json) :
  descobrir_radar ip r = Some d
  <-> exists dados,
        r = Some (200, Some (JObj dados))
        /\ dados !! "servico" = Some (JStr "radar")
        /\ d = dados ∪ {[ "ip" := JStr ip ]}
        /\ d !! "ip" = Some (default (JStr ip) (dados !! "ip"))
        /\ forall k, k <> "ip" -> d !! k = dados !! k.
Proof.
  split.
  - unfold descobrir_radar. destruct r as [[code corpo]|]; [|discriminate].
    destruct (Z.eqb_spec code 200) as [->|_]; [|discriminate].
    destruct corpo as [[| | | | | |dados]|]; try discriminate.
    destruct (dados !! "servico") as [[| | | |s| |]|] eqn:Hs; try discriminate.
    destruct (decide (s = "radar")) as [->|Hne].
    2:{ rewrite bool_decide_eq_false_2 by exact Hne. discriminate. }
    rewrite bool_decide_eq_true_2 by reflexivity. intros [= <-].
    exists dados. split; [reflexivity|]. split; [exact Hs|].
    split; [reflexivity|]. split.
    + rewrite lookup_union, lookup_singleton_eq.
      destruct (dados !! "ip"); reflexivity.
    + intros k Hk. rewrite lookup_union, lookup_singleton_ne by congruence.
      destruct (dados !! k); reflexivity.
  - intros (dados & -> & Hs & -> & _). unfold descobrir_radar. cbn.
    rewrite Hs, bool_decide_eq_true_2 by reflexivity. reflexivity.
Qed.

(** X15. The thread of a host that is no radar changes nothing. The thread
    of a host taken for a radar, with a string [radar_id] and a registry
    that is a dict, appends the descriptor to the result and writes one
    registry entry under that id: the entry has the probed address (also
    when the descriptor announces another), the other entries and the other
    keys of [config] are as before, and a radar that is registered already
    is replaced, not added. *)
Theorem scan_thread_registers_probed_address (h : Sonda)
    (enc : list (gmap string json)) (config conhecidos r : gmap string json)
    (radar_id : string) :
  (descobrir_radar (sd_ip h) (sd_resposta h) = None ->
   checar_ip (enc, config) h = Some (enc, config))
  /\ (descobrir_radar (sd_ip h) (sd_resposta h) = Some r ->
      r !! "radar_id" = Some (JStr radar_id) ->
      config !! "radares_conhecidos" = Some (JObj conhecidos) ->
      exists (entrada conhecidos' : gmap string json),
        checar_ip (enc, config) h
        = Some (enc ++ [r],
                <["radares_conhecidos" := JObj conhecidos']> config)
        /\ conhecidos' !! radar_id = Some (JObj entrada)
        /\ entrada !! "ip" = Some (JStr (sd_ip h))
        /\ entrada !! "radar_nome" = Some (get_or r "radar_nome" (JStr ""))
        /\ (forall k, k <> radar_id -> conhecidos' !! k = conhecidos !! k)
        /\ dom conhecidos' = {[ radar_id ]} ∪ dom conhecidos).
Proof.
  split.
  - intros Hno. unfold checar_ip. rewrite Hno. reflexivity.
  - intros Hr Hid Hreg. unfold checar_ip. rewrite Hr, Hid. cbn [fst snd].
    rewrite Hreg. eexists _, _. split; [reflexivity|].
    split; [apply lookup_insert_eq|].
    split; [apply lookup_insert_eq|].
    split.
    + rewrite lookup_insert_ne by discriminate. apply lookup_insert_eq.
    + split.
      * intros k Hk. apply lookup_insert_ne. congruence.
      * apply dom_insert_L.
Qed.



End MaisRegistro.

Section MaisRadares.

Import ManagerServer ManagerApi.

(** X17. With a registry whose entries are dicts, [GET /api/radares] lists
    exactly the registered radars, whatever the status cache holds: a
    radar without cached status is listed with [online] false, and for a
    radar with cached status every field of the cache is in its line. *)
Theorem radar_listing_follows_registry (st : Manager)
    (conhecidos : gmap string json) :
  config st !! "radares_conhecidos" = Some (JObj conhecidos) ->
  map_Forall (fun _ info => e_dict info = true) conhecidos ->
  exists lista,
    api_radares st = Corpo lista
    /\ dom lista = dom conhecidos
    /\ forall (radar_id : string) (linha : gmap string json),
         lista !! radar_id = Some linha ->
         (status_radares st !! radar_id = None ->
          linha !! "online" = Some (JBool false))
         /\ (forall (status : gmap string json) (k : string) (v : json),
               status_radares st !! radar_id = Some status ->
               status !! k = Some v -> linha !! k = Some v).
Proof.
  intros Hreg Hdict. unfold api_radares. rewrite Hreg.
  rewrite bool_decide_eq_true_2 by exact Hdict.
  eexists. split; [reflexivity|]. split.
  - apply set_eq. intros k. rewrite !elem_of_dom, map_lookup_imap.
    destruct (conhecidos !! k); cbn; split; intros [x Hx];
      try discriminate; eexists; reflexivity.
  - intros radar_id linha Hl. rewrite map_lookup_imap in Hl.
    destruct (conhecidos !! radar_id) as [info|]; [|discriminate].
    cbn in Hl. injection Hl as <-. unfold linha_radar. split.
    + intros Hnone. rewrite Hnone. cbn [default].
      rewrite lookup_union_r by apply lookup_empty.
      do 4 (rewrite lookup_insert_ne by discriminate).
      unfold get_or. rewrite lookup_empty. apply lookup_singleton_eq.
    + intros status k v Hst Hk. rewrite Hst. cbn [default].
      apply lookup_union_Some_l, Hk.
Qed.

(** X18. Removing a radar from a registry that is a dict answers 200 and
    forgets that radar alone: it is gone from the registry and from the
    status cache, the other radars keep their registry entry and their
    cached status, the event buffer is untouched, and removing it again
    changes nothing more. *)
Theorem remove_forgets_one_radar (radar_id : string) (st : Manager)
    (conhecidos : gmap string json) :
  config st !! "radares_conhecidos" = Some (JObj conhecidos) ->
  let r := api_radar_remover radar_id st in
  r.2 = 200
  /\ config r.1 !! "radares_conhecidos"
     = Some (JObj (delete radar_id conhecidos))
  /\ status_radares r.1 = delete radar_id (status_radares st)
  /\ (forall k, k <> "radares_conhecidos" -> config r.1 !! k = config st !! k)
  /\ eventos_recentes r.1 = eventos_recentes st
  /\ api_radar_remover radar_id r.1 = (r.1, 200).
Proof.
  intros Hreg r. unfold r, api_radar_remover. rewrite Hreg.
  cbn [pertence].
  destruct (decide (is_Some (conhecidos !! radar_id))) as [Hin|Hnin].
  - rewrite bool_decide_eq_true_2 by exact Hin. cbn [fst snd config
      status_radares eventos_recentes].
    split; [reflexivity|]. split; [apply lookup_insert_eq|].
    split; [reflexivity|].
    split; [intros k Hk; apply lookup_insert_ne; congruence|].
    split; [reflexivity|].
    rewrite lookup_insert_eq. cbn [pertence].
    rewrite bool_decide_eq_false_2.
    2:{ rewrite lookup_delete_eq. intros [x Hx]. discriminate. }
    rewrite delete_delete_eq. reflexivity.
  - rewrite bool_decide_eq_false_2 by exact Hnin. cbn [fst snd config
      status_radares eventos_recentes].
    assert (Hdel : delete radar_id conhecidos = conhecidos).
    { apply delete_id. destruct (conhecidos !! radar_id) eqn:E;
        [exfalso; apply Hnin; eexists; reflexivity|reflexivity]. }
    split; [reflexivity|]. split; [rewrite Hdel; exact Hreg|].
    split; [reflexivity|]. split; [reflexivity|]. split; [reflexivity|].
    rewrite Hreg. cbn [pertence].
    rewrite bool_decide_eq_false_2 by exact Hnin.
    rewrite delete_delete_eq. reflexivity.
Qed.

Lemma split_cons_other (c d : ascii) (r : string) :
  Ascii.eqb d c = false ->
  PyStrMais.split c (String d r)
  = match PyStrMais.split c r with
    | h :: t => String d h :: t
    | [] => [String d EmptyString]
    end.
Proof. intros H. cbn [PyStrMais.split]. rewrite H. reflexivity. Qed.

(** Up to the first separator [split] cuts off the text before it. *)
Lemma split_app (c : ascii) (a r : string) :
  PyStr.contains c a = false ->
  PyStrMais.split c (a +:+ String c r) = a :: PyStrMais.split c r.
Proof.
  induction a as [|d a IH]; intros Ha.
  - change (EmptyString +:+ String c r) with (String c r).
    cbn [PyStrMais.split]. rewrite Ascii.eqb_refl. reflexivity.
  - cbn [PyStr.contains] in Ha. apply orb_false_iff in Ha as [Hd Ha].
    rewrite append_cons, split_cons_other by exact Hd.
    rewrite IH by exact Ha. reflexivity.
Qed.

(** X19. [detectar_rede_local] answers with the /24 network of the local
    address: for an address [a.b.c.d] (no dot inside [a], [b] or [c]) the
    text [a.b.c.0/24]; and with [192.168.1.0/24] when the address cannot
    be read. *)
Theorem local_network_is_the_slash_24 (a b c d : string) :
  PyStr.contains "."%char a = false ->
  PyStr.contains "."%char b = false ->
  PyStr.contains "."%char c = false ->
  detectar_rede_local (Some (a +:+ "." +:+ b +:+ "." +:+ c +:+ "." +:+ d))
  = a +:+ "." +:+ b +:+ "." +:+ c +:+ ".0/24"
  /\ detectar_rede_local None = "192.168.1.0/24".
Proof.
  intros Ha Hb Hc. split; [|reflexivity]. unfold detectar_rede_local.
  change ("." +:+ b +:+ "." +:+ c +:+ "." +:+ d)
    with (String "."%char (b +:+ "." +:+ c +:+ "." +:+ d)).
  rewrite split_app by exact Ha.
  change ("." +:+ c +:+ "." +:+ d) with (String "."%char (c +:+ "." +:+ d)).
  rewrite split_app by exact Hb.
  change ("." +:+ d) with (String "."%char d).
  rewrite split_app by exact Hc. reflexivity.
Qed.

End MaisRadares.

(** ** Writing and reading back the settings of the edge node *)

Section MaisEnv.

Import RadarService RadarServiceApi RadarConfigRoutes RadarConfigApi.

Lemma splitlines_linha (a rest : string) :
  sem_quebra a = true ->
  splitlines (a +:+ String "010"%char rest) = a :: splitlines rest.
Proof.
  induction a as [|c a IH]; intros Ha.
  - change (EmptyString +:+ String "010"%char rest)
      with (String "010"%char rest).
    cbn [splitlines]. change (quebra "010"%char) with true. cbn [andb].
    destruct rest; reflexivity.
  - unfold sem_quebra in Ha. cbn [list_ascii_of_string forallb] in Ha.
    apply andb_true_iff in Ha as [Hc Ha]. apply negb_true_iff in Hc.
    rewrite append_cons. cbn [splitlines]. rewrite Hc, (IH Ha). reflexivity.
Qed.

Lemma splitlines_juntar (linhas : list string) :
  Forall (fun l => sem_quebra l = true) linhas ->
  splitlines (juntar linhas) = linhas.
Proof.
  induction 1 as [|l linhas Hl _ IH]; [reflexivity|].
  cbn [juntar foldr]. rewrite splitlines_linha by exact Hl.
  f_equal. exact IH.
Qed.

Lemma sem_quebra_app (a b : string) :
  sem_quebra (a +:+ b) = sem_quebra a && sem_quebra b.
Proof.
  induction a as [|c a IH]; [reflexivity|].
  rewrite append_cons. unfold sem_quebra in *.
  cbn [list_ascii_of_string forallb]. rewrite IH, andb_assoc. reflexivity.
Qed.

Lemma rstrip_idemp (s : string) : PyStr.rstrip (PyStr.rstrip s) = PyStr.rstrip s.
Proof.
  induction s as [|c s IH]; [reflexivity|].
  cbn [PyStr.rstrip]. destruct (PyStr.rstrip s) as [|d t] eqn:E.
  - destruct (PyStr.isspace c) eqn:Hc; [reflexivity|].
    cbn [PyStr.rstrip]. rewrite Hc. reflexivity.
  - cbn [PyStr.rstrip] in *. rewrite IH. reflexivity.
Qed.

Lemma letras_cons (c : ascii) (k : string) :
  letras (String c k) = true ->
  PyStr.isspace c = false /\ Ascii.eqb c "="%char = false /\ letras k = true.
Proof.
  unfold letras. cbn [list_ascii_of_string forallb].
  rewrite !andb_true_iff, !negb_true_iff. tauto.
Qed.

Lemma rstrip_letras (k w : string) :
  letras k = true ->
  PyStr.rstrip (k +:+ w) = k +:+ PyStr.rstrip w.
Proof.
  intros Hk. induction k as [|c k IH]; [reflexivity|].
  apply letras_cons in Hk as (Hc & _ & Hk).
  rewrite !append_cons, rstrip_cons_nonspace by exact Hc.
  rewrite (IH Hk). reflexivity.
Qed.

Lemma contains_letras (k w : string) :
  PyStr.contains "="%char (k +:+ String "="%char w) = true.
Proof.
  induction k as [|c k IH].
  - change (EmptyString +:+ String "="%char w) with (String "="%char w).
    reflexivity.
  - rewrite append_cons. cbn [PyStr.contains]. rewrite IH. apply orb_true_r.
Qed.

Lemma partition_letras (k w : string) :
  letras k = true ->
  PyStr.partition "="%char (k +:+ String "="%char w)
  = (k, String "="%char EmptyString, w).
Proof.
  induction k as [|c k IH]; intros Hk.
  - change (EmptyString +:+ String "="%char w) with (String "="%char w).
    reflexivity.
  - apply letras_cons in Hk as (_ & Hc & Hk).
    rewrite append_cons. cbn [PyStr.partition]. rewrite Hc, (IH Hk).
    reflexivity.
Qed.

Lemma rstrip_letras_id (k : string) : letras k = true -> PyStr.rstrip k = k.
Proof.
  induction k as [|c k IH]; intros Hk; [reflexivity|].
  apply letras_cons in Hk as (Hc & _ & Hk).
  rewrite rstrip_cons_nonspace by exact Hc. rewrite (IH Hk). reflexivity.
Qed.

(** What [api_config_local] makes of a line [name=value]. *)
Lemma ler_linha_par (config : gmap string string) (k v : string) :
  chave_simples k = true ->
  ler_linha config (linha_env (k, v))
  = if bool_decide (k = "PG_PASS") then config
    else <[k := PyStr.strip v]> config.
Proof.
  intros Hk. unfold linha_env. cbn [fst snd].
  destruct k as [|c k]; [discriminate|].
  unfold chave_simples in Hk. apply andb_true_iff in Hk as [Hhash Hk].
  apply negb_true_iff in Hhash. fold (letras (String c k)) in Hk.
  pose proof (letras_cons _ _ Hk) as (Hc & Heq & Hk').
  change ("=" +:+ v) with (String "="%char v).
  unfold ler_linha, PyStr.strip.
  assert (Hr : PyStr.rstrip (String c k +:+ String "="%char v)
               = String c k +:+ String "="%char (PyStr.rstrip v)).
  { rewrite rstrip_letras by exact Hk.
    rewrite rstrip_cons_nonspace by reflexivity. reflexivity. }
  rewrite Hr.
  assert (Hl : PyStr.lstrip (String c k +:+ String "="%char (PyStr.rstrip v))
               = String c k +:+ String "="%char (PyStr.rstrip v)).
  { rewrite append_cons. cbn [PyStr.lstrip]. rewrite Hc. reflexivity. }
  rewrite Hl, contains_letras, partition_letras by exact Hk.
  assert (Hs : PyStr.startswith "#"
                 (String c k +:+ String "="%char (PyStr.rstrip v)) = false).
  { rewrite append_cons. cbn [PyStr.startswith].
    rewrite Ascii.eqb_sym, Hhash. reflexivity. }
  rewrite Hs. cbn [negb andb].
  rewrite (rstrip_letras_id _ Hk), rstrip_idemp.
  assert (Hlk : PyStr.lstrip (String c k) = String c k).
  { cbn [PyStr.lstrip]. rewrite Hc. reflexivity. }
  rewrite Hlk. reflexivity.
Qed.

Lemma foldl_ler_linha_pares (pares : list (string * string)) :
  Forall (fun kv => chave_simples kv.1 = true) pares ->
  forall config,
    foldl ler_linha config (linha_env <$> pares) = foldl lido config pares.
Proof.
  induction 1 as [|[k v] pares Hk _ IH]; intros config; [reflexivity|].
  cbn [fmap list_fmap foldl]. rewrite ler_linha_par by exact Hk.
  apply IH.
Qed.

Lemma foldl_lido_other (pares : list (string * string)) (k : string) :
  k ∉ pares.*1 ->
  forall config, foldl lido config pares !! k = config !! k.
Proof.
  induction pares as [|[k' v'] pares IH]; intros Hk config; [reflexivity|].
  rewrite fmap_cons in Hk. apply not_elem_of_cons in Hk as [Hne Hk].
  cbn [fst] in Hne. cbn [foldl]. rewrite (IH Hk). unfold lido. cbn [fst snd].
  destruct (bool_decide (k' = "PG_PASS")); [reflexivity|].
  apply lookup_insert_ne. congruence.
Qed.

Lemma foldl_lido_lookup (pares : list (string * string)) (k v : string) :
  NoDup pares.*1 -> (k, v) ∈ pares -> k <> "PG_PASS" ->
  forall config, foldl lido config pares !! k = Some (PyStr.strip v).
Proof.
  induction pares as [|[k' v'] pares IH]; intros Hnd Hin Hk config.
  - apply not_elem_of_nil in Hin. contradiction.
  - rewrite fmap_cons in Hnd. apply NoDup_cons in Hnd as [Hk' Hnd].
    cbn [foldl]. apply elem_of_cons in Hin as [Heq|Hin].
    + injection Heq as <- <-. rewrite foldl_lido_other by exact Hk'.
      unfold lido. cbn [fst snd].
      rewrite bool_decide_eq_false_2 by exact Hk. apply lookup_insert_eq.
    + apply IH; assumption.
Qed.

Lemma foldl_lido_sem_senha (pares : list (string * string)) :
  forall config, config !! "PG_PASS" = None ->
                 foldl lido config pares !! "PG_PASS" = None.
Proof.
  induction pares as [|[k v] pares IH]; intros config Hc; [exact Hc|].
  cbn [foldl]. apply IH. unfold lido. cbn [fst snd].
  destruct (decide (k = "PG_PASS")) as [->|Hne].
  - rewrite bool_decide_eq_true_2 by reflexivity. exact Hc.
  - rewrite bool_decide_eq_false_2 by exact Hne.
    rewrite lookup_insert_ne by exact Hne. exact Hc.
Qed.

Variable cfg : Config.
Variable aj : Ajustes.
Variable str_de : ManagerServer.json -> string.

(** X20. What [POST /api/configurar] saves is what
    [GET /api/config-local] shows: for an authorised request with a
    payload object that is not empty, and values free of line breaks, the
    handler answers 200 and writes a file from which the config page reads
    every setting back under its name with the value written, stripped of
    white space at both ends, all but [PG_PASS], which it does not show. *)
Theorem saved_settings_read_back (auth : string)
    (dados : gmap string ManagerServer.json) (env : option string) :
  auth = "Bearer " +:+ API_TOKEN cfg ->
  ManagerServer.truthy (ManagerServer.JObj dados) = true ->
  Forall (fun kv => sem_quebra kv.2 = true) (valores cfg aj str_de dados) ->
  exists (text : string) (lidas : gmap string string),
    api_configurar cfg aj str_de auth (ManagerServer.JObj dados) env
    = (Some text, 200)
    /\ api_config_local cfg auth (Some (splitlines text)) = Json lidas
    /\ lidas !! "PG_PASS" = None
    /\ forall k v, (k, v) ∈ valores cfg aj str_de dados -> k <> "PG_PASS" ->
                   lidas !! k = Some (PyStr.strip v).
Proof.
  intros Hauth Htruthy Hvals.
  assert (Htok : forall (A : Type) (f : A), requer_token cfg auth f = Json f).
  { intros A f. unfold requer_token. rewrite Hauth.
    destruct (startswith_prefix "Bearer " (API_TOKEN cfg)) as [H1 H2].
    rewrite H1. change (String.length "Bearer ") with 7%nat in H2.
    rewrite H2, bool_decide_eq_true_2 by reflexivity. reflexivity. }
  set (pares := valores cfg aj str_de dados) in *.
  assert (Hkeys : pares.*1 =
            ["RADAR_ID"; "RADAR_NAME"; "RADAR_LOCATION"; "API_TOKEN";
             "SENSOR_A_PIN"; "SENSOR_B_PIN"; "SENSOR_DIST_M"; "SPEED_LIMIT";
             "PG_HOST"; "PG_PORT"; "PG_DB"; "PG_USER"; "PG_PASS";
             "SQLITE_PATH"; "SYNC_INTERVAL"; "API_PORT"]) by reflexivity.
  assert (Hsimples : Forall (fun kv => chave_simples kv.1 = true) pares).
  { apply (Forall_fmap fst (fun k => chave_simples k = true)).
    rewrite Hkeys. repeat (constructor; [reflexivity|]). constructor. }
  assert (Hlinhas : Forall (fun l => sem_quebra l = true) (linha_env <$> pares)).
  { apply Forall_fmap.
    assert (Hk : Forall (fun kv => sem_quebra kv.1 = true) pares).
    { apply (Forall_fmap fst (fun k => sem_quebra k = true)).
      rewrite Hkeys. repeat (constructor; [reflexivity|]). constructor. }
    clear -Hvals Hk. induction Hvals as [|[k v] ps Hv _ IH]; [constructor|].
    apply Forall_cons in Hk as [Hk Hks]. constructor; [|apply IH, Hks].
    unfold linha_env. cbn [fst snd compose] in *.
    rewrite !sem_quebra_app, Hk, Hv. reflexivity. }
  assert (Hnd : NoDup pares.*1).
  { rewrite Hkeys. apply (bool_decide_unpack _). vm_compute. exact I. }
  exists (juntar (linha_env <$> pares)), (foldl lido ∅ pares).
  split.
  - unfold api_configurar. rewrite Htok, Htruthy. reflexivity.
  - split.
    + unfold api_config_local. rewrite Htok.
      rewrite splitlines_juntar by exact Hlinhas.
      rewrite foldl_ler_linha_pares by exact Hsimples. reflexivity.
    + split.
      * apply foldl_lido_sem_senha, lookup_empty.
      * intros k v Hin Hk. apply foldl_lido_lookup; assumption.
Qed.

End MaisEnv.

(** ** The further properties at the worked runs *)

Import ExemplosMais.

Lemma integra_db_pendente : integra db_pendente.
Proof.
  split; [|split].
  - cbn. apply NoDup_singleton.
  - intros i j ri rj Hij Hi Hj. destruct j as [|j]; [lia|]. discriminate.
  - cbn. apply Forall_singleton. cbn. lia.
Qed.

Lemma local_table_stays_well_formed_witness :
  integra (estado (RadarService.salvar_deteccao cfg_exemplo 25.0 "A->B" "u2"
                     "2024-01-01T00:00:05" db_pendente))
  /\ integra (RadarService.marcar_sincronizado ["u1"] db_pendente).
Proof.
  pose proof (local_table_stays_well_formed cfg_exemplo 25.0 "A->B" "u2"
                "2024-01-01T00:00:05" ["u1"] (fun _ => false) None
                db_pendente integra_db_pendente) as (H1 & H2 & _).
  split; [exact H1|exact H2].
Defined.

Lemma good_cycle_pushes_a_batch_witness :
  pendentes
    (RadarService.sincronizar_com_central cfg_exemplo (fun _ => false)
       (Some pg_vazio) db_pendente).1
  = drop 100 (pendentes db_pendente).
Proof.
  pose proof (good_cycle_pushes_a_batch cfg_exemplo pg_vazio db_pendente
                eq_refl) as H.
  apply H.
  - discriminate.
  - cbn. apply NoDup_singleton.
Defined.

Lemma sync_loop_drains_backlog_witness :
  pendentes
    (RadarServiceApi.loop_sincronizacao cfg_exemplo (replicate 2 passo_bom)
       (db_pendente, pg_vazio)).1
  = drop (100 * 2) (pendentes db_pendente).
Proof.
  pose proof (sync_loop_drains_backlog cfg_exemplo 2 pg_vazio db_pendente
                eq_refl) as H.
  apply H.
  - discriminate.
  - cbn. apply NoDup_singleton.
Defined.

Lemma status_follows_saves_witness :
  exists s s' : RadarServiceApi.Status,
    (RadarServiceApi.s_pendentes_sync s
       <= RadarServiceApi.s_total_deteccoes s)%nat
    /\ RadarServiceApi.s_total_deteccoes s'
       = S (RadarServiceApi.s_total_deteccoes s)
    /\ RadarServiceApi.s_pendentes_sync s'
       = S (RadarServiceApi.s_pendentes_sync s)
    /\ RadarServiceApi.s_ultima_deteccao s'
       = Some (25.0%float, "2024-01-01T00:00:05").
Proof.
  eexists _, _.
  eapply (status_follows_saves cfg_exemplo aj_exemplo token_exemplo
            "2024-01-01T00:00:04" "2024-01-01T00:00:06" None None
            25.0 "A->B" "u2" "2024-01-01T00:00:05" db_pendente).
  - exact integra_db_pendente.
  - reflexivity.
  - reflexivity.
  - reflexivity.
Defined.

Lemma history_pages_tile_witness :
  RadarServiceApi.api_deteccoes cfg_exemplo token_exemplo (1 + 1) 0
    db_pendente = Corpo ([det_u1] ++ []).
Proof.
  apply (history_pages_tile cfg_exemplo token_exemplo 1 1 0 db_pendente
           [det_u1] []); try reflexivity; lia.
Defined.

Lemma history_starts_with_latest_witness :
  exists r,
    RadarServiceApi.api_deteccoes cfg_exemplo token_exemplo 2 0
      (estado (RadarService.salvar_deteccao cfg_exemplo 25.0 "A->B" "u2"
                 "2024-01-01T00:00:05" db_pendente))
    = Corpo (r :: [det_u1])
    /\ RadarService.det_uuid r = "u2"
    /\ RadarService.det_velocidade r = 25.0%float
    /\ RadarService.det_timestamp r = "2024-01-01T00:00:05"
    /\ RadarService.det_sincronizado r = 0.
Proof.
  apply (history_starts_with_latest cfg_exemplo token_exemplo 2 25.0 "A->B"
           "u2" "2024-01-01T00:00:05" db_pendente); try reflexivity; lia.
Defined.

Lemma live_buffer_keeps_200_newest_witness :
  (length (ManagerServer.eventos_recentes
             (ManagerServer.loop_polling py_eq_escalar dois_ciclos
                manager_inicial)) <= 200)%nat.
Proof.
  pose proof (live_buffer_keeps_200_newest py_eq_escalar dois_ciclos
                manager_inicial ev_a) as H.
  apply H. cbn. lia.
Defined.

Lemma event_listing_has_no_repeats_witness :
  (length (ManagerApi.api_eventos
             (ManagerServer.loop_polling py_eq_escalar dois_ciclos
                manager_inicial)) <= 50)%nat.
Proof.
  pose proof (event_listing_has_no_repeats py_eq_escalar dois_ciclos
                manager_inicial eq_refl) as [H _].
  exact H.
Defined.

Lemma feed_delivers_in_order_witness :
  ManagerApi.gerar_passo "2024-01-01T00:00:02" (length [ev_a])
    (foldl (fun b e => ManagerServer.adicionar_evento e b) [ev_a] [ev_b; ev_a])
  = ((ManagerApi.Dados <$> [ev_b; ev_a])
       ++ [ManagerApi.Heartbeat "2024-01-01T00:00:02"],
     (length [ev_a] + length [ev_b; ev_a])%nat).
Proof.
  pose proof (feed_delivers_in_order "2024-01-01T00:00:02" [ev_a] [ev_b; ev_a])
    as H.
  apply H. cbn. lia.
Defined.

Lemma feed_is_silent_when_full_witness :
  ManagerApi.gerar_passo "2024-01-01T00:00:02" 200
    (foldl (fun b e => ManagerServer.adicionar_evento e b) buffer_cheio
       [ev_a; ev_b])
  = ([ManagerApi.Heartbeat "2024-01-01T00:00:02"], 200%nat).
Proof.
  apply (feed_is_silent_when_full "2024-01-01T00:00:02" buffer_cheio
           [ev_a; ev_b]).
  apply length_replicate.
Defined.


Lemma radar_listing_follows_registry_witness :
  exists lista,
    ManagerApi.api_radares manager_r1 = Corpo lista
    /\ dom lista = {[ "r1" ]}.
Proof.
  destruct (radar_listing_follows_registry manager_r1
              {[ "r1" := ManagerServer.JObj info_r1 ]} eq_refl)
    as (lista & H1 & H2 & _).
  - apply map_Forall_singleton. reflexivity.
  - exists lista. split; [exact H1|]. rewrite H2. apply dom_singleton_L.
Defined.

Lemma remove_forgets_one_radar_witness :
  (ManagerApi.api_radar_remover "r1" manager_r1).2 = 200
  /\ ManagerServer.config (ManagerApi.api_radar_remover "r1" manager_r1).1
       !! "radares_conhecidos"
     = Some (ManagerServer.JObj
               (delete "r1" {[ "r1" := ManagerServer.JObj info_r1 ]})).
Proof.
  pose proof (remove_forgets_one_radar "r1" manager_r1
                {[ "r1" := ManagerServer.JObj info_r1 ]} eq_refl)
    as (H1 & H2 & _).
  split; [exact H1|exact H2].
Defined.

Lemma local_network_is_the_slash_24_witness :
  ManagerApi.detectar_rede_local
    (Some ("192" +:+ "." +:+ "168" +:+ "." +:+ "1" +:+ "." +:+ "50"))
  = "192" +:+ "." +:+ "168" +:+ "." +:+ "1" +:+ ".0/24".
Proof.
  apply (local_network_is_the_slash_24 "192" "168" "1" "50"); reflexivity.
Defined.

Lemma saved_settings_read_back_witness :
  exists (text : string) (lidas : gmap string string),
    RadarConfigApi.api_configurar cfg_exemplo aj_exemplo str_de_exemplo
      token_exemplo
      (ManagerServer.JObj {[ "radar_name" := ManagerServer.JStr " entrada " ]})
      None
    = (Some text, 200)
    /\ RadarConfigRoutes.api_config_local cfg_exemplo token_exemplo
         (Some (RadarConfigApi.splitlines text)) = Json lidas
    /\ lidas !! "PG_PASS" = None
    /\ lidas !! "RADAR_NAME" = Some "entrada".
Proof.
  assert (Ht : ManagerServer.truthy
                 (ManagerServer.JObj
                    {[ "radar_name" := ManagerServer.JStr " entrada " ]})
               = true) by (vm_compute; reflexivity).
  destruct (saved_settings_read_back cfg_exemplo aj_exemplo str_de_exemplo
              token_exemplo
              {[ "radar_name" := ManagerServer.JStr " entrada " ]} None
              eq_refl Ht)
    as (text & lidas & H1 & H2 & H3 & H4).
  - repeat (constructor; [reflexivity|]). constructor.
  - exists text, lidas. split; [exact H1|]. split; [exact H2|].
    split; [exact H3|].
    apply (H4 "RADAR_NAME" " entrada "); [|discriminate].
    apply list_elem_of_further, list_elem_of_here.
Defined.
